(** * Covalent Braket executor plugin: a shallow embedding of
      [covalent_braket_plugin/braket.py] and the properties of its
      dispatch pipeline.

    Python strings are [string]; Python ints are [Z]; dicts returned by
    the cloud clients are [gmap string _]; [os.environ] is a
    [gmap string string]; the local file system is a [gmap] from paths to
    file contents.  Calls into boto3, docker and [time.sleep] are recorded
    in a trace of events, and what the services answer is read from the
    state of the world the executor runs in. *)

From Stdlib Require Import ZArith Ascii DecimalString DecimalZ.
From stdpp Require Import gmap strings list.

Local Open Scope Z_scope.

(** ** Python string primitives *)

Module Py.

(** [str(n)] for a Python int: decimal digits, a leading minus sign for
    negative numbers. *)
Definition str_int (n : Z) : string :=
  NilEmpty.string_of_int (Z.to_int n).

(** Strings without a dash: the digits of a non-negative number are one. *)
Fixpoint string_all (p : ascii -> bool) (s : string) : bool :=
  match s with
  | EmptyString => true
  | String c s' => p c && string_all p s'
  end.

Definition is_dash (c : ascii) : bool := Ascii.eqb c "-"%char.
Definition no_dash (s : string) : bool := string_all (fun c => negb (is_dash c)) s.

(** [s.startswith(p)], returning the rest of [s] after the prefix. *)
Fixpoint strip_prefix (p s : string) : option string :=
  match p with
  | EmptyString => Some s
  | String c p' =>
      match s with
      | EmptyString => None
      | String d s' => if Ascii.eqb c d then strip_prefix p' s' else None
      end
  end.

(** [s.replace(old, new)] for a non-empty [old]: left to right,
    non-overlapping occurrences. The recursion is on [fuel], which the
    wrapper sets to the length of [s] plus one. *)
Fixpoint replace_go (fuel : nat) (old new s : string) : string :=
  match fuel with
  | O => s
  | S fuel' =>
      match strip_prefix old s with
      | Some rest => new +:+ replace_go fuel' old new rest
      | None =>
          match s with
          | EmptyString => EmptyString
          | String c s' => String c (replace_go fuel' old new s')
          end
      end
  end.

Definition replace (old new s : string) : string :=
  replace_go (S (String.length s)) old new s.

(** [os.path.basename(p)]: what follows the last slash. *)
Fixpoint basename_go (acc s : string) : string :=
  match s with
  | EmptyString => acc
  | String c s' =>
      if Ascii.eqb c "/"%char then basename_go s' s' else basename_go acc s'
  end.

Definition basename (p : string) : string := basename_go p p.

(** [os.path.join(a, b)] on POSIX paths. *)
Definition ends_with_slash (s : string) : bool :=
  match String.get (Nat.pred (String.length s)) s with
  | Some c => Ascii.eqb c "/"%char
  | None => false
  end.

Definition path_join (a b : string) : string :=
  match b with
  | String "/"%char _ => b
  | _ =>
      if orb (String.eqb a "") (ends_with_slash a) then a +:+ b
      else a +:+ "/" +:+ b
  end.

(** [b.decode("utf-8")]: a byte string decodes when it is well-formed
    UTF-8 (no stray or missing continuation byte, no overlong form, no
    surrogate, nothing above U+10FFFF), and raises otherwise. The decoded
    text is kept as its bytes. *)
Definition byte_in (lo hi : N) (c : ascii) : bool :=
  ((lo <=? N_of_ascii c) && (N_of_ascii c <=? hi))%N.

Definition is_continuation (c : ascii) : bool := byte_in 128 191 c.

Definition three_byte_lead (b0 b1 : ascii) : bool :=
  (byte_in 224 224 b0 && byte_in 160 191 b1)
  || (byte_in 225 236 b0 && is_continuation b1)
  || (byte_in 237 237 b0 && byte_in 128 159 b1)
  || (byte_in 238 239 b0 && is_continuation b1).

Definition four_byte_lead (b0 b1 : ascii) : bool :=
  (byte_in 240 240 b0 && byte_in 144 191 b1)
  || (byte_in 241 243 b0 && is_continuation b1)
  || (byte_in 244 244 b0 && byte_in 128 143 b1).

Fixpoint valid_utf8 (s : string) : bool :=
  match s with
  | EmptyString => true
  | String b0 s1 =>
      if byte_in 0 127 b0 then valid_utf8 s1
      else
        match s1 with
        | EmptyString => false
        | String b1 s2 =>
            if byte_in 194 223 b0 then is_continuation b1 && valid_utf8 s2
            else
              match s2 with
              | EmptyString => false
              | String b2 s3 =>
                  if three_byte_lead b0 b1 then is_continuation b2 && valid_utf8 s3
                  else
                    match s3 with
                    | EmptyString => false
                    | String b3 s4 =>
                        four_byte_lead b0 b1 && is_continuation b2
                        && is_continuation b3 && valid_utf8 s4
                    end
              end
        end
  end.

End Py.

(** ** Names derived in [execute] *)

(** [image_tag = f"{dispatch_id}-{node_id}"] *)
Definition image_tag (dispatch_id : string) (node_id : Z) : string :=
  dispatch_id +:+ "-" +:+ Py.str_int node_id.

(** [result_filename = f"result-{dispatch_id}-{node_id}.pkl"] *)
Definition result_filename (dispatch_id : string) (node_id : Z) : string :=
  "result-" +:+ dispatch_id +:+ "-" +:+ Py.str_int node_id +:+ ".pkl".

(** [task_results_dir = os.path.join(results_dir, dispatch_id)] *)
Definition task_results_dir (results_dir dispatch_id : string) : string :=
  Py.path_join results_dir dispatch_id.

(** ** Exceptions, cloud calls and the state of the world *)

(** A raised Python exception: the name of its class and its argument. *)
Record exn := Raise { exn_class : string; exn_arg : string }.

Definition KeyError (key : string) : exn := Raise "KeyError" key.
Definition IndexError : exn := Raise "IndexError" "list index out of range".
Definition UnpicklingError : exn := Raise "UnpicklingError" "invalid load key".
Definition ClientError (msg : string) : exn := Raise "ClientError" msg.
Definition StopIteration : exn := Raise "StopIteration" "".
Definition UnicodeDecodeError : exn := Raise "UnicodeDecodeError" "utf-8".

(** A dict with string keys and string values, as the AWS clients return. *)
Abbreviation dict := (gmap string string).

(** The keyword arguments of [braket.create_job]. *)
Record JobSpec := {
  containerImage_uri : string;
  checkpointConfig_s3Uri : string;
  deviceConfig_device : string;
  instanceType : string;
  volumeSizeInGb : Z;
  jobName : string;
  outputDataConfig_s3Path : string;
  roleArn : string;
  maxRuntimeInSeconds : Z
}.

(** The executor's constructor arguments ([cache_dir] is stored by
    [BaseExecutor] from [kwargs]). *)
Record BraketExecutor := {
  credentials : string;
  profile : string;
  s3_bucket_name : string;
  ecr_repo_name : string;
  braket_job_execution_role_name : string;
  quantum_device : string;
  classical_device : string;
  storage : Z;
  time_limit : Z;
  poll_freq : Z;
  cache_dir : string
}.

Section Pipeline.

(** Python objects (the callable, its arguments, the task's result) are
    opaque; [repr] is the text Python's [repr] gives for one in the run at
    hand (for some objects it changes from run to run), and
    [b64decode] is [base64.b64decode]: the decoded bytes, or the error it
    raises on a malformed token. *)
Variable value : Type.
Variable repr : value -> string.
Variable b64decode : string -> exn + string.

(** What a file or a stored object holds: the pickle of a value, or
    bytes that are not a pickle. *)
Inductive content :=
| Pickled (v : value)
| Bytes (s : string).

(** Every call that leaves the process or asks the host for something it
    can refuse. [DockerBuild] carries the local files the build can read:
    the Dockerfile and the build context. *)
Inductive event :=
| StsGetCallerIdentity
| AppLogWarning (identity : dict)
| Mkdir (path : string)
| CopyFile (src dst : string)
| S3UploadFile (filename bucket key : string)
| DockerBuild (path dockerfile tag : string) (context : gmap string content)
| EcrGetAuthorizationToken
| DockerLogin (username password registry : string)
| DockerTag (repository tag : string)
| DockerPush (repository tag : string)
| BraketCreateJob (spec : JobSpec)
| BraketGetJob (jobArn : string)
| Sleep (seconds : Z)
| S3DownloadFile (bucket key filename : string)
| LogsDescribeLogStreams (logGroupName logStreamNamePrefix : string)
| LogsGetLogEvents (logGroupName logStreamName : string).

(** The services as the executor sees them. [fault] says which calls
    raise; the other fields are the answers of the calls that return. *)
Record cloud := {
  fault : event -> option exn;
  sts_identity : dict;
  ecr_authorizationData : list dict;
  create_job_answer : JobSpec -> dict;
  log_streams : string -> string -> list dict;
  log_events : string -> string -> list dict
}.

(** The mutable part: the process environment, local files, the object
    store, the answers [get_job] has yet to give, the names
    [tempfile] will pick, and the calls made so far. *)
Record world := {
  environ : gmap string string;
  files : gmap string content;
  s3_objects : gmap (string * string) content;
  job_answers : list dict;
  tmp_stems : nat -> string;
  tmp_count : nat;
  trace : list event
}.

Definition set_environ (f : gmap string string -> gmap string string) (w : world) : world :=
  {| environ := f (environ w); files := files w; s3_objects := s3_objects w;
     job_answers := job_answers w; tmp_stems := tmp_stems w;
     tmp_count := tmp_count w; trace := trace w |}.

Definition set_files (f : gmap string content -> gmap string content) (w : world) : world :=
  {| environ := environ w; files := f (files w); s3_objects := s3_objects w;
     job_answers := job_answers w; tmp_stems := tmp_stems w;
     tmp_count := tmp_count w; trace := trace w |}.

Definition set_s3_objects
    (f : gmap (string * string) content -> gmap (string * string) content)
    (w : world) : world :=
  {| environ := environ w; files := files w; s3_objects := f (s3_objects w);
     job_answers := job_answers w; tmp_stems := tmp_stems w;
     tmp_count := tmp_count w; trace := trace w |}.

Definition set_job_answers (l : list dict) (w : world) : world :=
  {| environ := environ w; files := files w; s3_objects := s3_objects w;
     job_answers := l; tmp_stems := tmp_stems w;
     tmp_count := tmp_count w; trace := trace w |}.

Definition bump_tmp_count (w : world) : world :=
  {| environ := environ w; files := files w; s3_objects := s3_objects w;
     job_answers := job_answers w; tmp_stems := tmp_stems w;
     tmp_count := S (tmp_count w); trace := trace w |}.

Definition log_event (e : event) (w : world) : world :=
  {| environ := environ w; files := files w; s3_objects := s3_objects w;
     job_answers := job_answers w; tmp_stems := tmp_stems w;
     tmp_count := tmp_count w; trace := trace w ++ [e] |}.

(** *** The monad of the pipeline: state and exceptions *)

Definition M (A : Type) : Type := world -> world * (exn + A).

Definition ret {A} (a : A) : M A := fun w => (w, inr a).
Definition raise {A} (x : exn) : M A := fun w => (w, inl x).

Definition bind {A B} (m : M A) (k : A -> M B) : M B :=
  fun w =>
    match m w with
    | (w', inr a) => k a w'
    | (w', inl x) => (w', inl x)
    end.

(** [try: m finally: fin], also the exit of a [with] block. *)
Definition finally {A} (m : M A) (fin : M unit) : M A :=
  fun w =>
    match m w with
    | (w', r) =>
        match fin w' with
        | (w'', inr _) => (w'', r)
        | (w'', inl x) => (w'', inl x)
        end
    end.

Definition modify (f : world -> world) : M unit := fun w => (f w, inr tt).
Definition gets {A} (f : world -> A) : M A := fun w => (w, inr (f w)).


Notation "'let*' x ':=' m 'in' k" := (bind m (fun x => k))
  (at level 10, x name, m at level 200, k at level 200).

(** *** Primitive steps *)

Variable aws : cloud.
Variable self : BraketExecutor.

(** A call to a service: recorded, and raising when the service faults. *)
Definition call (e : event) : M unit :=
  fun w =>
    match fault aws e with
    | Some x => (log_event e w, inl x)
    | None => (log_event e w, inr tt)
    end.

(** [d[key]] *)
Definition getitem (d : dict) (key : string) : M string :=
  match d !! key with
  | Some v => ret v
  | None => raise (KeyError key)
  end.

(** [l[0]] *)
Definition first {A} (l : list A) : M A :=
  match l with
  | x :: _ => ret x
  | [] => raise IndexError
  end.

(** [tempfile.NamedTemporaryFile(dir=self.cache_dir, suffix=suffix)]: a
    new empty file under a name the module picks. The name is the
    directory joined with [tmp], the stem and the suffix; [cache_dir] is
    taken to be absolute and normalised, as the default is, and
    [tmp_stems] to list the stems of the names the module finds free. *)
Definition tmp_name (w : world) (suffix : string) : string :=
  Py.path_join (cache_dir self) ("tmp" +:+ tmp_stems w (tmp_count w) +:+ suffix).

Definition NamedTemporaryFile (suffix : string) : M string :=
  fun w =>
    (bump_tmp_count (set_files (insert (tmp_name w suffix) (Bytes "")) w),
     inr (tmp_name w suffix)).

Definition write_file (name : string) (c : content) : M unit :=
  modify (set_files (insert name c)).

Definition remove_file (name : string) : M unit :=
  modify (set_files (delete name)).

(** [with tempfile.NamedTemporaryFile(...) as f: body]: the file is
    deleted when the block is left, normally or by an exception. *)
Definition with_tempfile {A} (suffix : string) (body : string -> M A) : M A :=
  let* name := NamedTemporaryFile suffix in
  finally (body name) (remove_file name).

(** [shutil.copyfile(src, dst)]: the host refuses the copy when the
    directory of [dst] does not exist or cannot be written, which is for
    [fault] to say; nothing in the pipeline creates that directory. *)
Definition copyfile (src dst : string) : M unit :=
  let* _ := call (CopyFile src dst) in
  fun w =>
    match files w !! src with
    | Some c => (set_files (insert dst c) w, inr tt)
    | None => (w, inl (Raise "FileNotFoundError" src))
    end.

(** A computation that does not look at the world: its value, or the
    exception it raises. *)
Definition lift {A} (r : exn + A) : M A :=
  match r with
  | inr a => ret a
  | inl x => raise x
  end.

(** [b.decode("utf-8")] *)
Definition decode_utf8 (b : string) : M string :=
  if Py.valid_utf8 b then ret b else raise UnicodeDecodeError.

(** *** Text of the execution script and of the Dockerfile *)

Definition nl : string := String "010"%char EmptyString.
Definition dq : string := String "034"%char EmptyString.
Definition bs : string := String "092"%char EmptyString.

(** A string in double quotes, as the templates write it. *)
Definition quoted (s : string) : string := dq +:+ s +:+ dq.

Fixpoint unlines (l : list string) : string :=
  match l with
  | [] => ""
  | x :: l' => x +:+ nl +:+ unlines l'
  end.

(** [sep.join(l)] *)
Fixpoint join (sep : string) (l : list string) : string :=
  match l with
  | [] => ""
  | [x] => x
  | x :: l' => x +:+ sep +:+ join sep l'
  end.

(** [str(args)] for a list and [str(kwargs)] for a dict in insertion order. *)
Definition str_list (args : list value) : string :=
  "[" +:+ join ", " (map repr args) +:+ "]".

Definition str_dict (kwargs : list (value * value)) : string :=
  "{" +:+ join ", " (map (fun kv => repr (fst kv) +:+ ": " +:+ repr (snd kv)) kwargs) +:+ "}".

Definition _format_exec_script
    (func_filename result_filename docker_working_dir : string)
    (args : list value) (kwargs : list (value * value)) : string :=
  unlines [
    "";
    "import os";
    "import boto3";
    "import cloudpickle as pickle";
    "";
    "local_func_filename = os.path.join(" +:+ quoted docker_working_dir +:+ ", "
      +:+ quoted func_filename +:+ ")";
    "local_result_filename = os.path.join(" +:+ quoted docker_working_dir +:+ ", "
      +:+ quoted result_filename +:+ ")";
    "";
    "s3 = boto3.client(" +:+ quoted "s3" +:+ ")";
    "s3.download_file(" +:+ quoted (s3_bucket_name self) +:+ ", "
      +:+ quoted func_filename +:+ ", local_func_filename)";
    "";
    "with open(local_func_filename, " +:+ quoted "rb" +:+ ") as f:";
    "    function = pickle.load(f)";
    "";
    "result = function(" +:+ "*" +:+ str_list args +:+ ", **" +:+ str_dict kwargs +:+ ")";
    "";
    "with open(local_result_filename, " +:+ quoted "wb" +:+ ") as f:";
    "    pickle.dump(result, f)";
    "";
    "s3.upload_file(local_result_filename, " +:+ quoted (s3_bucket_name self) +:+ ", "
      +:+ quoted result_filename +:+ ")"
  ].

(** The part of the Dockerfile before the first substituted field. *)
Definition dockerfile_head : string :=
  unlines [
    "";
    "FROM python:3.8-slim-buster";
    "";
    "RUN apt-get update && apt-get install -y " +:+ bs;
    "  gcc " +:+ bs;
    "  && rm -rf /var/lib/apt/lists/*";
    "RUN pip install --no-cache-dir --use-feature=in-tree-build --upgrade " +:+ bs;
    "  amazon-braket-pennylane-plugin " +:+ bs;
    "  boto3==1.20.48 " +:+ bs;
    "  cloudpickle==2.0.0 " +:+ bs;
    "  pennylane==0.16.0 " +:+ bs;
    "  sagemaker-training";
    ""
  ].

Definition _format_dockerfile (exec_script_filename docker_working_dir : string) : string :=
  dockerfile_head +:+
  unlines [
    "WORKDIR " +:+ docker_working_dir;
    "";
    "COPY " +:+ Py.basename exec_script_filename +:+ " " +:+ docker_working_dir;
    "";
    "ENV SAGEMAKER_PROGRAM " +:+ Py.basename exec_script_filename
  ].

(** *** Packaging and upload *)

(** [s3.upload_file(filename, bucket, key)] *)
Definition s3_upload_file (filename bucket key : string) : M unit :=
  let* _ := call (S3UploadFile filename bucket key) in
  fun w =>
    match files w !! filename with
    | Some c => (set_s3_objects (insert (bucket, key) c) w, inr tt)
    | None => (w, inl (Raise "FileNotFoundError" filename))
    end.

(** [docker_client.images.build(path=..., dockerfile=..., tag=...)] *)
Definition docker_build (path dockerfile tag : string) : M unit :=
  fun w => call (DockerBuild path dockerfile tag (files w)) w.

(** [ecr.get_authorization_token()["authorizationData"]] *)
Definition ecr_get_authorization_token : M (list dict) :=
  let* _ := call EcrGetAuthorizationToken in
  ret (ecr_authorizationData aws).

Definition docker_working_dir : string := "/opt/ml/code".

(** The first [with] block: the pickled callable goes to the bucket. *)
Definition upload_function (function : value) (func_filename : string) : M unit :=
  with_tempfile "" (fun function_file =>
    let* _ := write_file function_file (Pickled function) in
    s3_upload_file function_file (s3_bucket_name self) func_filename).

(** The second [with] block: the script and the Dockerfile are written
    to temporary files, the Dockerfile is copied to the results directory,
    and the image is built. *)
Definition build_image
    (func_filename image_tag task_results_dir result_filename : string)
    (args : list value) (kwargs : list (value * value)) : M unit :=
  with_tempfile ".py" (fun exec_script_file =>
  with_tempfile "" (fun dockerfile_file =>
    let exec_script :=
      _format_exec_script func_filename result_filename docker_working_dir args kwargs in
    let* _ := write_file exec_script_file (Bytes exec_script) in
    let dockerfile := _format_dockerfile exec_script_file docker_working_dir in
    let* _ := write_file dockerfile_file (Bytes dockerfile) in
    let local_dockerfile := Py.path_join task_results_dir ("Dockerfile_" +:+ image_tag) in
    let* _ := copyfile dockerfile_file local_dockerfile in
    docker_build (cache_dir self) dockerfile_file image_tag)).

(** The rest: log in to the registry, tag and push. *)
Definition push_image (image_tag : string) : M string :=
  let ecr_username := "AWS" in
  let* authorizationData := ecr_get_authorization_token in
  let* ecr_credentials := first authorizationData in
  let* token := getitem ecr_credentials "authorizationToken" in
  let* decoded := lift (b64decode token) in
  let* ecr_password := decode_utf8 (Py.replace "AWS:" "" decoded) in
  let* ecr_registry := getitem ecr_credentials "proxyEndpoint" in
  let ecr_repo_uri :=
    Py.replace "https://" "" ecr_registry +:+ "/" +:+ ecr_repo_name self +:+ ":" +:+ image_tag in
  let* _ := call (DockerLogin ecr_username ecr_password ecr_registry) in
  let* _ := call (DockerTag ecr_repo_uri image_tag) in
  let* _ := call (DockerPush ecr_repo_uri image_tag) in
  ret ecr_repo_uri.

Definition _package_and_upload
    (function : value) (image_tag task_results_dir result_filename : string)
    (args : list value) (kwargs : list (value * value)) : M string :=
  let func_filename := "func-" +:+ image_tag +:+ ".pkl" in
  let* _ := upload_function function func_filename in
  let* _ :=
    build_image func_filename image_tag task_results_dir result_filename args kwargs in
  push_image image_tag.

(** *** Polling *)

(** [braket.get_job(jobArn=job_arn)]: the next answer of the service. A
    call after the last answer raises. *)
Definition braket_get_job (job_arn : string) : M dict :=
  let* _ := call (BraketGetJob job_arn) in
  fun w =>
    match job_answers w with
    | job :: rest => (set_job_answers rest w, inr job)
    | [] => (w, inl StopIteration)
    end.

Definition get_status (job_arn : string) : M string :=
  let* job := braket_get_job job_arn in
  getitem job "status".

(** [status in ["COMPLETED", "FAILED", "CANCELLED"]] *)
Definition is_terminal (status : string) : bool :=
  existsb (String.eqb status) ["COMPLETED"; "FAILED"; "CANCELLED"].

(** The [while] loop of [_poll_braket_job]. Every round takes one answer
    from the service or raises, so with [fuel] above the number of
    answers left the first case of the [match] is never reached. *)
Fixpoint poll_while (fuel : nat) (job_arn status : string) : M string :=
  if is_terminal status then ret status
  else
    match fuel with
    | O => raise StopIteration
    | S fuel' =>
        let* _ := call (Sleep (poll_freq self)) in
        let* status' := get_status job_arn in
        poll_while fuel' job_arn status'
    end.

(** The first query and the loop: the status the polling stops at. *)
Definition poll_loop (job_arn : string) : M string :=
  let* status := get_status job_arn in
  let* left := gets (fun w => length (job_answers w)) in
  poll_while (S left) job_arn status.

Definition _poll_braket_job (job_arn : string) : M unit :=
  let* status := poll_loop job_arn in
  if String.eqb status "FAILED" then
    let* job := braket_get_job job_arn in
    let* failure_reason := getitem job "failureReason" in
    raise (Raise "Exception" failure_reason)
  else ret tt.

(** *** Retrieving the result *)

(** [s3.download_file(bucket, key, filename)] *)
Definition s3_download_file (bucket key filename : string) : M unit :=
  let* _ := call (S3DownloadFile bucket key filename) in
  fun w =>
    match s3_objects w !! (bucket, key) with
    | Some c => (set_files (insert filename c) w, inr tt)
    | None => (w, inl (ClientError "Not Found"))
    end.

(** [with open(filename, "rb") as f: pickle.load(f)] *)
Definition pickle_load (filename : string) : M value :=
  fun w =>
    match files w !! filename with
    | Some (Pickled v) => (w, inr v)
    | Some (Bytes _) => (w, inl UnpicklingError)
    | None => (w, inl (Raise "FileNotFoundError" filename))
    end.

(** [os.remove(filename)] *)
Definition os_remove (filename : string) : M unit :=
  fun w =>
    match files w !! filename with
    | Some _ => (set_files (delete filename) w, inr tt)
    | None => (w, inl (Raise "FileNotFoundError" filename))
    end.

Definition describe_log_streams (logGroupName logStreamNamePrefix : string) : M (list dict) :=
  let* _ := call (LogsDescribeLogStreams logGroupName logStreamNamePrefix) in
  ret (log_streams aws logGroupName logStreamNamePrefix).

Definition get_log_events (logGroupName logStreamName : string) : M (list dict) :=
  let* _ := call (LogsGetLogEvents logGroupName logStreamName) in
  ret (log_events aws logGroupName logStreamName).

(** [for event in events: log_events += event["message"] + "\n"] *)
Fixpoint concat_messages (events : list dict) (acc : string) : M string :=
  match events with
  | [] => ret acc
  | event :: events' =>
      let* message := getitem event "message" in
      concat_messages events' (acc +:+ (message +:+ nl))
  end.

(** The prefix is the literal the source writes: the string is not an
    f-string, so the braces and the name between them are passed on as
    they are. *)
Definition log_stream_prefix (image_tag : string) : string := "covalent-{image_tag}".

(** The second half of [_query_result]: the log text of the job. *)
Definition fetch_logs (image_tag : string) : M string :=
  let log_group_name := "/aws/braket/jobs" in
  let* streams := describe_log_streams log_group_name (log_stream_prefix image_tag) in
  let* stream := first streams in
  let* log_stream_name := getitem stream "logStreamName" in
  let* events := get_log_events log_group_name log_stream_name in
  concat_messages events "".

Definition _query_result
    (result_filename task_results_dir job_arn image_tag : string)
    : M (value * string * string) :=
  let local_result_filename := Py.path_join task_results_dir result_filename in
  let* _ := s3_download_file (s3_bucket_name self) result_filename local_result_filename in
  let* result := pickle_load local_result_filename in
  let* _ := os_remove local_result_filename in
  let* log_events := fetch_logs image_tag in
  ret (result, log_events, "").

(** *** The whole pipeline *)

(** [braket.create_job(...)] *)
Definition braket_create_job (spec : JobSpec) : M dict :=
  let* _ := call (BraketCreateJob spec) in
  ret (create_job_answer aws spec).

Definition job_spec (ecr_repo_uri image_tag account : string) : JobSpec :=
  {| containerImage_uri := ecr_repo_uri;
     checkpointConfig_s3Uri := "s3://" +:+ s3_bucket_name self +:+ "/checkpoints/" +:+ image_tag;
     deviceConfig_device := quantum_device self;
     instanceType := classical_device self;
     volumeSizeInGb := storage self;
     jobName := "covalent-" +:+ image_tag;
     outputDataConfig_s3Path := "s3://" +:+ s3_bucket_name self +:+ "/braket/" +:+ image_tag;
     roleArn := "arn:aws:iam::" +:+ account +:+ ":role/" +:+ braket_job_execution_role_name self;
     maxRuntimeInSeconds := time_limit self |}.

(** What [execute] returns: the result (or [None]), the logs, and a third
    component that is a string or, when no account was found, the
    identity dict. The dispatch context [execute] enters around the
    packaging is the host's bookkeeping and leaves no mark on the world. *)
Definition outcome : Type := option value * string * (string + dict).

Definition execute
    (function : value) (args : list value) (kwargs : list (value * value))
    (dispatch_id results_dir : string) (node_id : Z) : M outcome :=
  let* _ := modify (set_environ (insert "AWS_SHARED_CREDENTIALS_FILE" (credentials self))) in
  let* _ := modify (set_environ (insert "AWS_PROFILE" (profile self))) in
  let* _ := call StsGetCallerIdentity in
  let identity := sts_identity aws in
  match identity !! "Account" with
  | None =>
      let* _ := modify (log_event (AppLogWarning identity)) in
      ret (None, "", inr identity)
  | Some account =>
      let* _ := call (Mkdir (cache_dir self)) in
      let* ecr_repo_uri :=
        _package_and_upload function (image_tag dispatch_id node_id)
          (task_results_dir results_dir dispatch_id)
          (result_filename dispatch_id node_id) args kwargs in
      let* job :=
        braket_create_job (job_spec ecr_repo_uri (image_tag dispatch_id node_id) account) in
      let* job_arn := getitem job "jobArn" in
      let* _ := _poll_braket_job job_arn in
      let* r :=
        _query_result (result_filename dispatch_id node_id)
          (task_results_dir results_dir dispatch_id) job_arn
          (image_tag dispatch_id node_id) in
      ret (Some (fst (fst r)), snd (fst r), inl (snd r))
  end.

End Pipeline.

Arguments Pickled {value} v.
Arguments Bytes {value} s.
Arguments execute {value} repr b64decode aws self function args kwargs
  dispatch_id results_dir node_id w.
Arguments _package_and_upload {value} repr b64decode aws self function image_tag
  task_results_dir result_filename args kwargs w.
Arguments _query_result {value} aws self result_filename task_results_dir job_arn image_tag w.
Arguments _poll_braket_job {value} aws self job_arn w.
Arguments poll_loop {value} aws self job_arn w.
Arguments poll_while {value} aws self fuel job_arn status w.
Arguments get_status {value} aws job_arn w.
Arguments braket_get_job {value} aws job_arn w.
Arguments _format_exec_script {value} repr self func_filename result_filename
  docker_working_dir args kwargs.
Arguments concat_messages {value} events acc w.
Arguments fetch_logs {value} aws image_tag w.
Arguments upload_function {value} aws self function func_filename w.
Arguments build_image {value} repr aws self func_filename image_tag task_results_dir
  result_filename args kwargs w.
Arguments push_image {value} b64decode aws self image_tag w.
Arguments call {value} aws e w.
Arguments environ {value} w.
Arguments files {value} w.
Arguments s3_objects {value} w.
Arguments job_answers {value} w.
Arguments tmp_stems {value} w n.
Arguments tmp_count {value} w.
Arguments trace {value} w.
Arguments fault {value} c e.
Arguments sts_identity {value} c.
Arguments log_streams {value} c logGroupName logStreamNamePrefix.
Arguments log_events {value} c logGroupName logStreamName.
Arguments tmp_name {value} self w suffix.
Arguments Py.path_join : simpl never.
Arguments Py.basename : simpl never.

(** ** Vocabulary of the statements *)

(** The world after further calls [es] have been recorded. *)
Definition add_trace {value} (es : list (event value)) (w : world value) : world value :=
  {| environ := environ w; files := files w; s3_objects := s3_objects w;
     job_answers := job_answers w; tmp_stems := tmp_stems w;
     tmp_count := tmp_count w; trace := trace w ++ es |}.

(** An answer of [get_job] whose status keeps the loop going. *)
Definition is_pending (job : dict) : bool :=
  match job !! "status" with
  | Some s => negb (is_terminal s)
  | None => false
  end.

(** One round of the loop: the sleep, then the query. *)
Definition poll_round {value} (self : BraketExecutor) (job_arn : string) : list (event value) :=
  [Sleep value (poll_freq self); BraketGetJob value job_arn].

(** The calls of a polling that saw [n] pending answers: the first query,
    then [n] rounds. *)
Definition poll_trace {value} (self : BraketExecutor) (job_arn : string) (n : nat)
    : list (event value) :=
  BraketGetJob value job_arn :: concat (repeat (poll_round self job_arn) n).

(** The messages of a list of log events, when each has one. *)
Fixpoint messages (events : list dict) : option (list string) :=
  match events with
  | [] => Some []
  | event :: events' =>
      match event !! "message", messages events' with
      | Some m, Some ms => Some (m :: ms)
      | _, _ => None
      end
  end.

(** The local files once the result object [c] has been downloaded to
    [name], and once that copy has been removed again. *)
Definition downloaded {value} (name : string) (c : content value) (w : world value)
    : world value :=
  set_files value (insert name c) w.

Definition cleaned {value} (name : string) (c : content value) (w : world value)
    : world value :=
  set_files value (delete name) (downloaded name c w).

(** [m] takes every world to one related to it by [R]. *)
Definition evolves {value A} (R : relation (world value)) (m : M value A) : Prop :=
  forall w, R w (fst (m w)).

(** Worlds that agree on a component, and worlds of which the second has
    recorded further calls. *)
Definition same_on {value B} (f : world value -> B) : relation (world value) :=
  fun w w' => f w' = f w.

Definition trace_grows {value} : relation (world value) :=
  fun w w' => trace w `prefix_of` trace w'.

(** The temporary files of a packaging run started in [w]: the pickled
    callable, the execution script and the Dockerfile, in the order
    [tempfile] is asked for them. *)
Definition nth_tmp_name {value} (self : BraketExecutor) (w : world value) (n : nat)
    (suffix : string) : string :=
  Py.path_join (cache_dir self) ("tmp" +:+ tmp_stems w (n + tmp_count w) +:+ suffix).

Definition function_file {value} (self : BraketExecutor) (w : world value) : string :=
  nth_tmp_name self w 0 "".
Definition exec_script_file {value} (self : BraketExecutor) (w : world value) : string :=
  nth_tmp_name self w 1 ".py".
Definition dockerfile_file {value} (self : BraketExecutor) (w : world value) : string :=
  nth_tmp_name self w 2 "".

(** The calls a computation adds to the trace of [w]. *)
Definition calls {value A} (m : M value A) (w : world value) : list (event value) :=
  drop (length (trace w)) (trace (fst (m w))).

(** The first image build among some calls: the name of its Dockerfile and
    the files it reads. *)
Fixpoint first_build {value} (es : list (event value))
    : option (string * gmap string (content value)) :=
  match es with
  | [] => None
  | DockerBuild _ _ dockerfile _ context :: _ => Some (dockerfile, context)
  | _ :: es' => first_build es'
  end.

(** What the build of a run reads as its Dockerfile, and what it finds
    under [name] in its context. *)
Definition built_dockerfile {value A} (m : M value A) (w : world value)
    : option (content value) :=
  match first_build (calls m w) with
  | Some (dockerfile, context) => context !! dockerfile
  | None => None
  end.

Definition built_file {value A} (name : string) (m : M value A) (w : world value)
    : option (content value) :=
  match first_build (calls m w) with
  | Some (_, context) => context !! name
  | None => None
  end.

(** ** A concrete deployment

    The scenario of the plugin's tests: values are strings, dispatch
    [d1], node 1, account [123], one log stream with the events [a] and
    [b]. *)

Module Scenario.

Definition py_repr (s : string) : string := "'" +:+ s +:+ "'".

(** The registry token is given already decoded. *)
Definition decoded (s : string) : exn + string := inr s.

Definition executor : BraketExecutor :=
  {| credentials := "/home/user/.aws/credentials";
     profile := "default";
     s3_bucket_name := "bucket";
     ecr_repo_name := "covalent-braket-job-images";
     braket_job_execution_role_name := "CovalentBraketJobsExecutionRole";
     quantum_device := "arn:aws:braket:::device/quantum-simulator/amazon/sv1";
     classical_device := "ml.m5.large";
     storage := 30;
     time_limit := 300;
     poll_freq := 30;
     cache_dir := "/tmp/covalent" |}.

Definition status_answer (s : string) : dict := {[ "status" := s ]}.
Definition failure_answer (reason : string) : dict :=
  {[ "status" := "FAILED"; "failureReason" := reason ]}.

Definition services : cloud string :=
  {| fault := fun _ => None;
     sts_identity := {[ "Account" := "123" ]};
     ecr_authorizationData :=
       [ {[ "authorizationToken" := "AWS:secret"; "proxyEndpoint" := "https://registry" ]} ];
     create_job_answer := fun _ => {[ "jobArn" := "arn:job" ]};
     log_streams := fun _ _ => [ {[ "logStreamName" := "stream-1" ]} ];
     log_events := fun _ _ => [ {[ "message" := "a" ]}; {[ "message" := "b" ]} ] |}.

(** The same services when the identity has no account, and when no log
    stream exists. *)
Definition services_no_account : cloud string :=
  {| fault := fun _ => None;
     sts_identity := {[ "UserId" := "u" ]};
     ecr_authorizationData := ecr_authorizationData string services;
     create_job_answer := create_job_answer string services;
     log_streams := log_streams services;
     log_events := log_events services |}.

Definition services_no_stream : cloud string :=
  {| fault := fun _ => None;
     sts_identity := sts_identity services;
     ecr_authorizationData := ecr_authorizationData string services;
     create_job_answer := create_job_answer string services;
     log_streams := fun _ _ => [];
     log_events := log_events services |}.

(** A world in which the job has stored [result] under the result key and
    the service will give [answers]; [stem] is what [tempfile] picks. *)
Definition world_with (stem : string) (result : content string) (answers : list dict)
    : world string :=
  {| environ := ∅;
     files := ∅;
     s3_objects := {[ ("bucket", "result-d1-1.pkl") := result ]};
     job_answers := answers;
     tmp_stems := fun n => stem +:+ Py.str_int (Z.of_nat n);
     tmp_count := 0;
     trace := [] |}.

Definition completing : world string :=
  world_with "abc" (Pickled "hello world")
    [status_answer "QUEUED"; status_answer "RUNNING"; status_answer "COMPLETED"].

Definition failing : world string :=
  world_with "abc" (Pickled "hello world")
    [status_answer "QUEUED"; failure_answer "error"; failure_answer "error"].

Definition corrupted : world string :=
  world_with "abc" (Bytes "not a pickle") [].

(** One packaging, run in two worlds that differ in the names [tempfile]
    picks. *)
Definition packaging : M string string :=
  _package_and_upload py_repr decoded services executor "f" "d1-1" "/results/d1"
    "result-d1-1.pkl" ["x"] [].

Definition first_run : world string := world_with "abc" (Pickled "hello world") [].
Definition second_run : world string := world_with "xyz" (Pickled "hello world") [].

End Scenario.

(** ** The plugin defaults

    [_EXECUTOR_PLUGIN_DEFAULTS] is computed from the process environment
    when the module is loaded. [x or y] takes [y] when [x] is [None] or the
    empty string; [os.environ["HOME"]] raises when the variable is unset,
    and is only looked at when the credentials variable gives nothing. *)

Definition default_credentials (env : gmap string string) : exn + string :=
  match env !! "AWS_SHARED_CREDENTIALS_FILE" with
  | Some (String c s) => inr (String c s)
  | _ =>
      match env !! "HOME" with
      | Some home => inr (Py.path_join home ".aws/credentials")
      | None => inl (KeyError "HOME")
      end
  end.

Definition default_profile (env : gmap string string) : string :=
  match env !! "AWS_PROFILE" with
  | Some (String c s) => String c s
  | _ => ""
  end.

(** An executor built from the defaults. *)
Definition _EXECUTOR_PLUGIN_DEFAULTS (env : gmap string string) : exn + BraketExecutor :=
  match default_credentials env with
  | inl x => inl x
  | inr c =>
      inr {| credentials := c;
             profile := default_profile env;
             s3_bucket_name := "amazon-braket-covalent-job-resources";
             ecr_repo_name := "covalent-braket-job-images";
             braket_job_execution_role_name := "CovalentBraketJobsExecutionRole";
             quantum_device := "arn:aws:braket:::device/quantum-simulator/amazon/sv1";
             classical_device := "ml.m5.large";
             storage := 30;
             time_limit := 300;
             poll_freq := 30;
             cache_dir := "/tmp/covalent" |}
  end.

(** ** Which service a call goes to *)

Inductive service :=
| Identity
| Host
| ObjectStore
| Docker
| Registry
| JobService
| LogService
| Clock.

Global Instance service_eq_dec : EqDecision service.
Proof. solve_decision. Defined.

Definition service_of {value} (e : event value) : service :=
  match e with
  | StsGetCallerIdentity _ => Identity
  | AppLogWarning _ _ | Mkdir _ _ | CopyFile _ _ _ => Host
  | S3UploadFile _ _ _ _ | S3DownloadFile _ _ _ _ => ObjectStore
  | DockerBuild _ _ _ _ _ | DockerLogin _ _ _ _ | DockerTag _ _ _ | DockerPush _ _ _ => Docker
  | EcrGetAuthorizationToken _ => Registry
  | BraketCreateJob _ _ | BraketGetJob _ _ => JobService
  | Sleep _ _ => Clock
  | LogsDescribeLogStreams _ _ _ | LogsGetLogEvents _ _ _ => LogService
  end.

Definition talks_to {value} (l : list service) (e : event value) : bool :=
  bool_decide (service_of e ∈ l).

Definition is_create_job {value} (e : event value) : bool :=
  match e with
  | BraketCreateJob _ _ => true
  | _ => false
  end.

Definition is_upload {value} (e : event value) : bool :=
  match e with
  | S3UploadFile _ _ _ _ => true
  | _ => false
  end.

Definition is_poll_call {value} (e : event value) : bool :=
  match e with
  | BraketGetJob _ _ | Sleep _ _ => true
  | _ => false
  end.

Definition is_retrieval_call {value} (e : event value) : bool :=
  match e with
  | S3DownloadFile _ _ _ _ | LogsDescribeLogStreams _ _ _ | LogsGetLogEvents _ _ _ => true
  | _ => false
  end.

Definition not_create_job {value} (e : event value) : bool := negb (is_create_job e).

(** What [execute] does once the job is created: poll, then retrieve. *)
Definition after_submit {value} (aws : cloud value) (self : BraketExecutor)
    (dispatch_id results_dir : string) (node_id : Z) (job_arn : string)
    : M value (outcome value) :=
  bind value (_poll_braket_job aws self job_arn) (fun _ =>
  bind value
    (_query_result aws self (result_filename dispatch_id node_id)
       (task_results_dir results_dir dispatch_id) job_arn (image_tag dispatch_id node_id))
    (fun r => ret value (Some (fst (fst r)), snd (fst r), inl (snd r)))).

(** The second world has recorded further calls, all of them in [P]. *)
Definition adds {value} (P : event value -> bool) : relation (world value) :=
  fun w w' => exists es, trace w' = trace w ++ es /\ forallb P es = true.

(** A path component without a slash, as [tempfile] makes them. *)
Definition no_slash (s : string) : bool :=
  Py.string_all (fun c => negb (Ascii.eqb c "/"%char)) s.

(** ** Further concrete cases *)

Module Cases.


(** Services whose registry gives no authorization data. *)
Definition services_no_token : cloud string :=
  {| fault := fun _ => None;
     sts_identity := sts_identity Scenario.services;
     ecr_authorizationData := [];
     create_job_answer := create_job_answer string Scenario.services;
     log_streams := log_streams Scenario.services;
     log_events := log_events Scenario.services |}.

(** Services of which one log event has no message. *)
Definition services_bad_event : cloud string :=
  {| fault := fun _ => None;
     sts_identity := sts_identity Scenario.services;
     ecr_authorizationData := ecr_authorizationData string Scenario.services;
     create_job_answer := create_job_answer string Scenario.services;
     log_streams := log_streams Scenario.services;
     log_events := fun _ _ => [ {[ "message" := "a" ]}; {[ "timestamp" := "1" ]} ] |}.

(** A job whose second answer has no status, and a failed job whose
    second answer has no reason. *)
Definition answer_without_status : world string :=
  Scenario.world_with "abc" (Pickled "hello world")
    [Scenario.status_answer "QUEUED"; {[ "jobArn" := "arn:job" ]};
     Scenario.status_answer "COMPLETED"].

Definition failure_without_reason : world string :=
  Scenario.world_with "abc" (Pickled "hello world")
    [Scenario.status_answer "FAILED"; Scenario.status_answer "FAILED"].

Definition cancelled : world string :=
  Scenario.world_with "abc" (Pickled "hello world")
    [Scenario.status_answer "RUNNING"; Scenario.status_answer "CANCELLED"].

(** An environment with both credential variables set, and one with only
    the home directory. *)
Definition env_configured : gmap string string :=
  {[ "AWS_SHARED_CREDENTIALS_FILE" := "/etc/aws/credentials";
     "AWS_PROFILE" := "work"; "HOME" := "/home/user" ]}.

Definition env_home_only : gmap string string := {[ "HOME" := "/home/user" ]}.

Definition configured_world : world string :=
  set_environ string (fun _ => env_configured) Scenario.completing.

Definition home_world : world string :=
  set_environ string (fun _ => env_home_only) Scenario.completing.

(** The defaults in these two environments. *)
Definition defaults_with (credentials profile : string) : BraketExecutor :=
  {| credentials := credentials;
     profile := profile;
     s3_bucket_name := "amazon-braket-covalent-job-resources";
     ecr_repo_name := "covalent-braket-job-images";
     braket_job_execution_role_name := "CovalentBraketJobsExecutionRole";
     quantum_device := "arn:aws:braket:::device/quantum-simulator/amazon/sv1";
     classical_device := "ml.m5.large";
     storage := 30;
     time_limit := 300;
     poll_freq := 30;
     cache_dir := "/tmp/covalent" |}.

Definition configured_executor : BraketExecutor :=
  defaults_with "/etc/aws/credentials" "work".

Definition home_executor : BraketExecutor :=
  defaults_with "/home/user/.aws/credentials" "".

End Cases.

(** * Properties *)

(** ** Sanity checks of the string primitives *)

Example image_tag_d1 : image_tag "d1" 1 = "d1-1".
Proof. reflexivity. Qed.

Example image_tag_default_node : image_tag "d1" (-1) = "d1--1".
Proof. reflexivity. Qed.

Example basename_tmp : Py.basename "/tmp/covalent/tmpab12.py" = "tmpab12.py".
Proof. reflexivity. Qed.

Example replace_https :
  Py.replace "https://" "" "https://123.dkr.ecr.us-east-1.amazonaws.com"
  = "123.dkr.ecr.us-east-1.amazonaws.com".
Proof. reflexivity. Qed.

(** ** The image tag *)

Module TagFacts.

Import Py.

Lemma str_int_inj (a b : Z) : str_int a = str_int b -> a = b.
Proof.
  unfold str_int. intros H.
  apply DecimalZ.to_int_inj.
  assert (Hp : NilEmpty.int_of_string (NilEmpty.string_of_int (Z.to_int a))
               = NilEmpty.int_of_string (NilEmpty.string_of_int (Z.to_int b)))
    by (now rewrite H).
  rewrite !NilEmpty.isi in Hp. congruence.
Qed.

Lemma string_of_uint_no_dash (d : Decimal.uint) :
  no_dash (NilEmpty.string_of_uint d) = true.
Proof. induction d; simpl; auto. Qed.

Lemma str_int_nonneg_no_dash (n : Z) : 0 <= n -> no_dash (str_int n) = true.
Proof.
  intros Hn. unfold str_int. destruct n as [|p|p]; simpl.
  - reflexivity.
  - apply string_of_uint_no_dash.
  - lia.
Qed.

Lemma app_nil_s (s : string) : "" +:+ s = s.
Proof. reflexivity. Qed.

Lemma app_cons_s (c : ascii) (a s : string) : String c a +:+ s = String c (a +:+ s).
Proof. reflexivity. Qed.

Ltac str_norm := rewrite ?app_cons_s, ?app_nil_s in *.

Lemma no_dash_app_dash (a b : string) : no_dash (a +:+ String "-" b) = false.
Proof.
  unfold no_dash. induction a as [|c a IH]; str_norm; simpl.
  - reflexivity.
  - rewrite IH. apply andb_false_r.
Qed.

Lemma append_inv_head (a b c : string) : a +:+ b = a +:+ c -> b = c.
Proof.
  induction a as [|x a IH]; str_norm; intros H; [done | injection H; auto].
Qed.

(** A string is cut in one way only at its last dash. *)
Lemma split_last_dash (a1 a2 b1 b2 : string) :
  no_dash b1 = true -> no_dash b2 = true ->
  a1 +:+ String "-" b1 = a2 +:+ String "-" b2 ->
  a1 = a2 /\ b1 = b2.
Proof.
  intros H1 H2. revert a2.
  induction a1 as [|c a1 IH]; intros [|d a2] H; str_norm.
  - injection H as ->. done.
  - injection H as <- ->. by rewrite no_dash_app_dash in H1.
  - injection H as -> <-. by rewrite no_dash_app_dash in H2.
  - injection H as -> H. destruct (IH _ H) as [-> ->]. done.
Qed.

(** A tag is cut at its last dash into the digits of the node id and what
    stands before them: the dispatch id, followed by a dash when the node
    id is negative. *)
Lemma image_tag_cut (d : string) (n : Z) :
  image_tag d n = (if n <? 0 then d +:+ "-" else d) +:+ String "-" (str_int (Z.abs n))
  /\ no_dash (str_int (Z.abs n)) = true.
Proof.
  split; [| apply str_int_nonneg_no_dash; lia].
  unfold image_tag. destruct n as [|p|p]; simpl; try reflexivity.
  induction d as [|c d IH]; str_norm; [reflexivity | by rewrite IH].
Qed.

Lemma app_dash_inj (a b : string) : a +:+ "-" = b +:+ "-" -> a = b.
Proof.
  revert b. induction a as [|c a IH]; intros [|d b] H; str_norm.
  - done.
  - injection H as <- H. destruct b; discriminate.
  - injection H as -> H. destruct a; discriminate.
  - injection H as -> H. by rewrite (IH _ H).
Qed.

End TagFacts.

(** C8, pure but not injective: a dispatch id ending in a dash with node 1
    and the same id without the dash with node -1 (the default node id)
    get one tag. *)
Lemma image_tag_collision :
  ("a-", 1) <> ("a", -1) /\ image_tag "a-" 1 = image_tag "a" (-1).
Proof. split; [discriminate | reflexivity]. Qed.

(** C8, amended: equal pairs get equal tags, and two different pairs get
    the same tag in one case only: the node ids are a positive number and
    its negative, and the dispatch id that goes with the positive one is the
    other dispatch id followed by a dash. So the tags of two pairs whose
    node ids have the same sign (both negative, as with the default -1 on
    both sides, or both non-negative) are equal only when the pairs are,
    and within one dispatch different node ids get different tags. *)
Theorem image_tag_injective (d1 d2 : string) (n1 n2 : Z) :
  image_tag d1 n1 = image_tag d2 n2
  <-> (d1 = d2 /\ n1 = n2)
      \/ (0 < n1 /\ n2 = - n1 /\ d1 = d2 +:+ "-")
      \/ (0 < n2 /\ n1 = - n2 /\ d2 = d1 +:+ "-").
Proof.
  destruct (TagFacts.image_tag_cut d1 n1) as [-> Hb1].
  destruct (TagFacts.image_tag_cut d2 n2) as [-> Hb2].
  split.
  - intros H. apply TagFacts.split_last_dash in H as [Hd Hn]; [| done | done].
    apply TagFacts.str_int_inj in Hn.
    destruct (Z.ltb_spec n1 0), (Z.ltb_spec n2 0).
    + left. apply TagFacts.app_dash_inj in Hd. split; [done | lia].
    + right. right. repeat split; [lia | lia | done].
    + right. left. repeat split; [lia | lia | done].
    + left. split; [done | lia].
  - intros [[-> ->] | [(Hpos & -> & ->) | (Hpos & -> & ->)]]; [done | |].
    + rewrite Z.abs_opp.
      destruct (Z.ltb_spec n1 0), (Z.ltb_spec (- n1) 0); try lia. done.
    + rewrite Z.abs_opp.
      destruct (Z.ltb_spec n2 0), (Z.ltb_spec (- n2) 0); try lia. done.
Qed.

(** ** Polling *)

(** The fuel of [poll_while] is never used up: any two amounts above the
    number of answers the service has left give the same run. *)
Lemma poll_while_fuel_enough {value} (aws : cloud value) (self : BraketExecutor)
    (job_arn : string) (fuel1 : nat) :
  forall (fuel2 : nat) (status : string) (w : world value),
    (length (job_answers w) < fuel1)%nat ->
    (length (job_answers w) < fuel2)%nat ->
    poll_while aws self fuel1 job_arn status w = poll_while aws self fuel2 job_arn status w.
Proof.
  induction fuel1 as [|fuel1 IH]; intros fuel2 status w H1 H2; [lia|].
  destruct fuel2 as [|fuel2]; [lia|].
  simpl. destruct (is_terminal status); [done|].
  unfold get_status, braket_get_job, bind, call, getitem.
  destruct (fault aws (Sleep value (poll_freq self))); [done|].
  destruct (fault aws (BraketGetJob value job_arn)); [done|].
  simpl. destruct (job_answers w) as [|job rest] eqn:Hw; [done|].
  destruct (job !! "status") as [s|]; [|done].
  apply IH; simpl in *; lia.
Qed.

Section PollFacts.

Context {value : Type} (aws : cloud value) (self : BraketExecutor) (job_arn : string).

Hypothesis get_job_answers : fault aws (BraketGetJob value job_arn) = None.
Hypothesis sleep_returns : fault aws (Sleep value (poll_freq self)) = None.

Lemma braket_get_job_next (job : dict) (rest : list dict) (w : world value) :
  job_answers w = job :: rest ->
  braket_get_job aws job_arn w
  = (set_job_answers value rest (log_event value (BraketGetJob value job_arn) w), inr job).
Proof.
  intros Hw. unfold braket_get_job, bind, call.
  rewrite get_job_answers. simpl. by rewrite Hw.
Qed.

Lemma get_status_next (job : dict) (s : string) (rest : list dict) (w : world value) :
  job_answers w = job :: rest -> job !! "status" = Some s ->
  get_status aws job_arn w
  = (set_job_answers value rest (log_event value (BraketGetJob value job_arn) w), inr s).
Proof.
  intros Hw Hs. unfold get_status, bind.
  rewrite (braket_get_job_next job rest w Hw).
  unfold getitem. by rewrite Hs.
Qed.

Lemma is_pending_status (job : dict) :
  is_pending job = true -> exists s, job !! "status" = Some s /\ is_terminal s = false.
Proof.
  unfold is_pending. destruct (job !! "status") as [s|]; [|done].
  intros H. exists s. split; [done|]. by apply negb_true_iff.
Qed.

(** The loop, entered with a pending status: one round per answer up to
    and including the first terminal one. *)
Lemma poll_while_rounds (last : dict) (t : string) (rest : list dict) :
  last !! "status" = Some t -> is_terminal t = true ->
  forall (pre : list dict) (w : world value) (s : string) (fuel : nat),
    is_terminal s = false ->
    forallb is_pending pre = true ->
    job_answers w = pre ++ last :: rest ->
    (length pre < fuel)%nat ->
    poll_while aws self fuel job_arn s w
    = (add_trace (concat (repeat (poll_round self job_arn) (S (length pre))))
         (set_job_answers value rest w), inr t).
Proof.
  intros Hlast Ht. induction pre as [|job pre IH]; intros w s fuel Hs Hpre Hw Hfuel.
  - destruct fuel as [|fuel]; [simpl in Hfuel; lia|].
    simpl. rewrite Hs. unfold bind at 1. unfold call. rewrite sleep_returns.
    unfold bind at 1.
    rewrite (get_status_next last t rest
               (log_event value (Sleep value (poll_freq self)) w) Hw Hlast).
    destruct fuel; simpl; rewrite Ht; unfold ret;
      destruct w; unfold add_trace, set_job_answers, log_event; simpl;
      by rewrite <- !app_assoc.
  - destruct fuel as [|fuel]; [simpl in Hfuel; lia|].
    simpl in Hpre. apply andb_true_iff in Hpre as [Hjob Hpre].
    destruct (is_pending_status job Hjob) as (s' & Hs' & Hterm).
    simpl. rewrite Hs. unfold bind at 1. unfold call. rewrite sleep_returns.
    unfold bind at 1.
    rewrite (get_status_next job s' (pre ++ last :: rest)
               (log_event value (Sleep value (poll_freq self)) w) Hw Hs').
    erewrite IH; [| done | done | reflexivity | simpl in Hfuel; lia].
    destruct w; unfold add_trace, set_job_answers, log_event; simpl.
    by rewrite <- !app_assoc.
Qed.

Lemma poll_loop_rounds (pre : list dict) (last : dict) (t : string) (rest : list dict)
    (w : world value) :
  forallb is_pending pre = true ->
  last !! "status" = Some t -> is_terminal t = true ->
  job_answers w = pre ++ last :: rest ->
  poll_loop aws self job_arn w
  = (add_trace (poll_trace self job_arn (length pre)) (set_job_answers value rest w), inr t).
Proof.
  intros Hpre Hlast Ht Hw. unfold poll_loop. destruct pre as [|job pre].
  - unfold bind at 1. rewrite (get_status_next last t rest w Hw Hlast).
    unfold bind, gets. simpl. rewrite Ht. unfold ret.
    destruct w; unfold add_trace, set_job_answers, log_event; simpl. done.
  - simpl in Hpre. apply andb_true_iff in Hpre as [Hjob Hpre].
    destruct (is_pending_status job Hjob) as (s & Hs & Hterm).
    unfold bind at 1. rewrite (get_status_next job s (pre ++ last :: rest) w Hw Hs).
    unfold bind at 1. unfold gets.
    erewrite (poll_while_rounds last t rest Hlast Ht pre);
      [| done | done | reflexivity | simpl; rewrite length_app; simpl; lia].
    destruct w; unfold add_trace, poll_trace, set_job_answers, log_event; simpl.
    by rewrite <- !app_assoc.
Qed.

End PollFacts.

(** C1: when the service answers with pending statuses and then a terminal
    one, the polling stops at that terminal status, having made the first
    query and then one round (a sleep of the poll interval, then a query)
    per pending answer; and unless the status is FAILED, [_poll_braket_job]
    returns there. *)
Theorem poll_stops_at_first_terminal {value} (aws : cloud value) (self : BraketExecutor)
    (job_arn : string) (pre : list dict) (last : dict) (t : string) (rest : list dict)
    (w : world value) :
  fault aws (BraketGetJob value job_arn) = None ->
  fault aws (Sleep value (poll_freq self)) = None ->
  forallb is_pending pre = true ->
  last !! "status" = Some t ->
  is_terminal t = true ->
  job_answers w = pre ++ last :: rest ->
  poll_loop aws self job_arn w
  = (add_trace (poll_trace self job_arn (length pre)) (set_job_answers value rest w), inr t)
  /\ (t <> "FAILED" ->
      _poll_braket_job aws self job_arn w
      = (add_trace (poll_trace self job_arn (length pre)) (set_job_answers value rest w),
         inr tt)).
Proof.
  intros Hget Hsleep Hpre Hlast Ht Hw.
  pose proof (poll_loop_rounds aws self job_arn Hget Hsleep pre last t rest w
                Hpre Hlast Ht Hw) as Hloop.
  split; [done|]. intros Hne.
  unfold _poll_braket_job, bind. rewrite Hloop.
  destruct (String.eqb_spec t "FAILED"); [done|]. done.
Qed.

Lemma poll_stops_at_first_terminal_witness :
  poll_loop Scenario.services Scenario.executor "arn:job" Scenario.completing
  = (add_trace (poll_trace Scenario.executor "arn:job" 2)
       (set_job_answers string [] Scenario.completing), inr "COMPLETED")
  /\ ("COMPLETED" <> "FAILED" ->
      _poll_braket_job Scenario.services Scenario.executor "arn:job" Scenario.completing
      = (add_trace (poll_trace Scenario.executor "arn:job" 2)
           (set_job_answers string [] Scenario.completing), inr tt)).
Proof.
  apply (poll_stops_at_first_terminal Scenario.services Scenario.executor "arn:job"
           [Scenario.status_answer "QUEUED"; Scenario.status_answer "RUNNING"]
           (Scenario.status_answer "COMPLETED") "COMPLETED" [] Scenario.completing);
    reflexivity.
Defined.

(** The calls of a polling, counted: one more query than sleeps. *)
Lemma poll_trace_length {value} (self : BraketExecutor) (job_arn : string) (n : nat) :
  length (poll_trace (value := value) self job_arn n) = S (2 * n).
Proof.
  unfold poll_trace. simpl. f_equal.
  induction n as [|n IH]; simpl; [done | rewrite IH; lia].
Qed.

(** C2, as stated, fails on the class of the exception: with answers
    QUEUED, FAILED and the reason [error], what is raised carries
    [error] but is a plain [Exception], not a [RemoteExecutionError]. *)
Lemma poll_failed_raises_plain_exception :
  exists x,
    snd (_poll_braket_job Scenario.services Scenario.executor "arn:job" Scenario.failing)
    = inl x
    /\ exn_arg x = "error"
    /\ exn_class x = "Exception"
    /\ exn_class x <> "RemoteExecutionError".
Proof. eexists. repeat split. discriminate. Qed.

(** C2, amended: when the first terminal status is FAILED, the polling
    makes one more [get_job] call with no sleep before it, and raises the
    built-in [Exception] whose argument is the [failureReason] of that
    answer. *)
Theorem poll_failed_raises_reason {value} (aws : cloud value) (self : BraketExecutor)
    (job_arn : string) (pre : list dict) (last job : dict) (reason : string)
    (rest : list dict) (w : world value) :
  fault aws (BraketGetJob value job_arn) = None ->
  fault aws (Sleep value (poll_freq self)) = None ->
  forallb is_pending pre = true ->
  last !! "status" = Some "FAILED" ->
  job !! "failureReason" = Some reason ->
  job_answers w = pre ++ last :: job :: rest ->
  _poll_braket_job aws self job_arn w
  = (add_trace (poll_trace self job_arn (length pre) ++ [BraketGetJob value job_arn])
       (set_job_answers value rest w),
     inl (Raise "Exception" reason)).
Proof.
  intros Hget Hsleep Hpre Hlast Hreason Hw.
  unfold _poll_braket_job. unfold bind at 1.
  rewrite (poll_loop_rounds aws self job_arn Hget Hsleep pre last "FAILED" (job :: rest) w
             Hpre Hlast eq_refl Hw).
  simpl. unfold bind at 1.
  erewrite (braket_get_job_next aws job_arn Hget job rest); [|reflexivity].
  unfold bind, getitem. rewrite Hreason. unfold raise.
  destruct w; unfold add_trace, set_job_answers, log_event; simpl.
  by rewrite <- !app_assoc.
Qed.

Lemma poll_failed_raises_reason_witness :
  _poll_braket_job Scenario.services Scenario.executor "arn:job" Scenario.failing
  = (add_trace (poll_trace Scenario.executor "arn:job" 1 ++ [BraketGetJob string "arn:job"])
       (set_job_answers string [] Scenario.failing),
     inl (Raise "Exception" "error")).
Proof.
  apply (poll_failed_raises_reason Scenario.services Scenario.executor "arn:job"
           [Scenario.status_answer "QUEUED"] (Scenario.failure_answer "error")
           (Scenario.failure_answer "error") "error" [] Scenario.failing);
    reflexivity.
Defined.

(** ** Retrieving the result *)

Lemma app_assoc_s (a b c : string) : (a +:+ b) +:+ c = a +:+ (b +:+ c).
Proof.
  induction a as [|x a IH]; rewrite ?TagFacts.app_cons_s, ?TagFacts.app_nil_s;
    [done | by rewrite IH].
Qed.

Lemma app_nil_r_s (a : string) : a +:+ "" = a.
Proof.
  induction a as [|x a IH]; rewrite ?TagFacts.app_cons_s, ?TagFacts.app_nil_s;
    [done | by rewrite IH].
Qed.

Section QueryFacts.

Context {value : Type} (aws : cloud value) (self : BraketExecutor).
Context (result_filename task_results_dir job_arn image_tag : string).

Let local_result_filename : string := Py.path_join task_results_dir result_filename.
Let download : event value :=
  S3DownloadFile value (s3_bucket_name self) result_filename local_result_filename.
Let describe : event value :=
  LogsDescribeLogStreams value "/aws/braket/jobs" (log_stream_prefix image_tag).

Lemma concat_messages_unlines (events : list dict) (msgs : list string) :
  messages events = Some msgs ->
  forall (acc : string) (w : world value),
    concat_messages events acc w = (w, inr (acc +:+ unlines msgs)).
Proof.
  revert msgs. induction events as [|event events IH]; intros msgs Hm acc w.
  - injection Hm as <-. simpl. unfold ret. by rewrite app_nil_r_s.
  - simpl in Hm. destruct (event !! "message") as [m|] eqn:Hevent; [|done].
    destruct (messages events) as [ms|]; [|done]. injection Hm as <-.
    simpl. unfold bind, getitem. rewrite Hevent. unfold ret.
    rewrite (IH ms eq_refl). by rewrite !app_assoc_s.
Qed.

(** Once the result is loaded and its local copy removed, what remains is
    the fetching of the logs. *)
Lemma query_result_loaded (v : value) (w : world value) :
  fault aws download = None ->
  s3_objects w !! (s3_bucket_name self, result_filename) = Some (Pickled v) ->
  _query_result aws self result_filename task_results_dir job_arn image_tag w
  = match fetch_logs aws image_tag
            (add_trace [download] (cleaned local_result_filename (Pickled v) w)) with
    | (w', inr logs) => (w', inr (v, logs, ""))
    | (w', inl x) => (w', inl x)
    end.
Proof.
  intros Hfault Hobj.
  unfold _query_result, s3_download_file, bind, call. fold local_result_filename download.
  rewrite Hfault. simpl. rewrite Hobj.
  unfold pickle_load, os_remove. simpl.
  repeat (rewrite lookup_insert_eq; simpl).
  unfold cleaned, downloaded, add_trace, set_files, log_event. simpl.
  destruct (fetch_logs _ _ _) as [w' [x|logs]]; done.
Qed.

(** When the result object is not a pickle, loading raises and the local
    copy stays. *)
Lemma query_result_not_loaded (b : string) (w : world value) :
  fault aws download = None ->
  s3_objects w !! (s3_bucket_name self, result_filename) = Some (Bytes b) ->
  _query_result aws self result_filename task_results_dir job_arn image_tag w
  = (add_trace [download] (downloaded local_result_filename (Bytes b) w),
     inl UnpicklingError).
Proof.
  intros Hfault Hobj.
  unfold _query_result, s3_download_file, bind, call. fold local_result_filename download.
  rewrite Hfault. simpl. rewrite Hobj.
  unfold pickle_load. simpl. rewrite !lookup_insert_eq. done.
Qed.

(** The logs, when a stream is found and every event has a message. *)
Lemma fetch_logs_first_stream (stream : dict) (others : list dict) (name : string)
    (msgs : list string) (w : world value) :
  fault aws describe = None ->
  fault aws (LogsGetLogEvents value "/aws/braket/jobs" name) = None ->
  log_streams aws "/aws/braket/jobs" (log_stream_prefix image_tag) = stream :: others ->
  stream !! "logStreamName" = Some name ->
  messages (log_events aws "/aws/braket/jobs" name) = Some msgs ->
  fetch_logs aws image_tag w
  = (add_trace [describe; LogsGetLogEvents value "/aws/braket/jobs" name] w,
     inr (unlines msgs)).
Proof.
  intros Hdescribe Hevents Hstreams Hname Hmsgs.
  unfold fetch_logs, describe_log_streams, get_log_events, bind, call.
  fold describe. rewrite Hdescribe. simpl. rewrite Hstreams. simpl.
  unfold getitem. rewrite Hname. simpl. rewrite Hevents. simpl.
  rewrite (concat_messages_unlines _ msgs Hmsgs).
  destruct w; unfold add_trace, log_event; simpl. by rewrite <- !app_assoc.
Qed.

(** The logs, when no stream is found: indexing the empty list raises. *)
Lemma fetch_logs_no_stream (w : world value) :
  fault aws describe = None ->
  log_streams aws "/aws/braket/jobs" (log_stream_prefix image_tag) = [] ->
  fetch_logs aws image_tag w = (add_trace [describe] w, inl IndexError).
Proof.
  intros Hdescribe Hstreams.
  unfold fetch_logs, describe_log_streams, bind, call.
  fold describe. rewrite Hdescribe. simpl. rewrite Hstreams. simpl. done.
Qed.

End QueryFacts.

(** ** What a step leaves alone *)

Section Frames.

Context {value : Type}.

Global Instance same_on_preorder {B} (f : world value -> B) : PreOrder (same_on f).
Proof. split; unfold same_on; [by intros w | intros w1 w2 w3; congruence]. Qed.

Global Instance trace_grows_preorder : PreOrder (@trace_grows value).
Proof.
  split; unfold trace_grows; [by intros w | intros w1 w2 w3 H1 H2; by etrans].
Qed.

Context (R : relation (world value)) `{!PreOrder R}.

Lemma evolves_ret {A} (a : A) : evolves R (ret value a).
Proof. by intros w. Qed.

Lemma evolves_raise {A} (x : exn) : evolves R (raise value (A := A) x).
Proof. by intros w. Qed.

Lemma evolves_gets {A} (f : world value -> A) : evolves R (gets value f).
Proof. by intros w. Qed.

Lemma evolves_bind {A B} (m : M value A) (k : A -> M value B) :
  evolves R m -> (forall a, evolves R (k a)) -> evolves R (bind value m k).
Proof.
  intros Hm Hk w. unfold bind. specialize (Hm w).
  destruct (m w) as [w' [x|a]]; simpl in *; [done|].
  etrans; [exact Hm | apply Hk].
Qed.

Lemma evolves_finally {A} (m : M value A) (fin : M value unit) :
  evolves R m -> evolves R fin -> evolves R (finally value m fin).
Proof.
  intros Hm Hfin w. unfold finally. specialize (Hm w).
  destruct (m w) as [w' r]; simpl in *. specialize (Hfin w').
  destruct (fin w') as [w'' [x|[]]]; simpl in *; by etrans.
Qed.

Lemma evolves_getitem (d : dict) (key : string) : evolves R (getitem value d key).
Proof. unfold getitem. destruct (d !! key); [apply evolves_ret | apply evolves_raise]. Qed.

Lemma evolves_first {A} (l : list A) : evolves R (first value l).
Proof. destruct l; [apply evolves_raise | apply evolves_ret]. Qed.

Lemma evolves_lift {A} (r : exn + A) : evolves R (lift value r).
Proof. destruct r; [apply evolves_raise | apply evolves_ret]. Qed.

Lemma evolves_decode_utf8 (b : string) : evolves R (decode_utf8 value b).
Proof.
  unfold decode_utf8. destruct (Py.valid_utf8 b); [apply evolves_ret | apply evolves_raise].
Qed.

End Frames.

(** Proves [evolves R m] along the structure of [m]: [known] closes the
    stages that have a lemma of their own, [prim] the steps that act on the
    world. *)
Ltac evolve_with known prim :=
  repeat first
    [ solve [known]
    | apply evolves_ret; apply _
    | apply evolves_raise; apply _
    | apply evolves_gets; apply _
    | apply evolves_getitem; apply _
    | apply evolves_first; apply _
    | apply evolves_lift; apply _
    | apply evolves_decode_utf8; apply _
    | apply evolves_bind; [apply _ | | intros ?]
    | apply evolves_finally; [apply _ | |]
    | solve [prim]
    | match goal with
      | |- evolves _ (if ?b then _ else _) => destruct b
      | |- evolves _ (match ?x with _ => _ end) => destruct x
      end ].

Ltac evolve prim := evolve_with assumption prim.

Ltac same_on_prim :=
  let w := fresh "w" in
  intros w;
  unfold same_on, docker_build, write_file, remove_file, NamedTemporaryFile,
    pickle_load, os_remove, call, modify;
  simpl; repeat case_match; simpl; done.

Ltac trace_grows_prim :=
  let w := fresh "w" in
  intros w;
  unfold trace_grows, docker_build, write_file, remove_file, NamedTemporaryFile,
    pickle_load, os_remove, call, modify;
  simpl; repeat case_match; simpl; first [done | by apply prefix_app_r].

Section PipelineFrames.

Context {value : Type} (repr : value -> string) (b64decode : string -> exn + string).
Context (aws : cloud value) (self : BraketExecutor).

Lemma concat_messages_evolves (R : relation (world value)) `{!PreOrder R}
    (events : list dict) (acc : string) :
  evolves R (concat_messages (value := value) events acc).
Proof.
  revert acc. induction events as [|event events IH]; intros acc; simpl.
  - by apply evolves_ret.
  - apply evolves_bind; [done | by apply evolves_getitem | intros m; apply IH].
Qed.

(** Fetching the logs touches no local file. *)
Lemma fetch_logs_same_files (image_tag : string) :
  evolves (same_on files) (fetch_logs aws image_tag).
Proof.
  unfold fetch_logs, describe_log_streams, get_log_events.
  evolve same_on_prim. apply concat_messages_evolves; apply _.
Qed.

(** *** The process environment *)

Lemma poll_while_evolves (R : relation (world value)) `{!PreOrder R}
    (fuel : nat) (job_arn : string) :
  evolves R (call aws (Sleep value (poll_freq self))) ->
  evolves R (braket_get_job aws job_arn) ->
  forall status, evolves R (poll_while aws self fuel job_arn status).
Proof.
  intros Hsleep Hget. induction fuel as [|fuel IH]; intros status; simpl.
  - destruct (is_terminal status); [by apply evolves_ret | by apply evolves_raise].
  - destruct (is_terminal status); [by apply evolves_ret|].
    apply evolves_bind; [done | done | intros _].
    apply evolves_bind; [done | | intros s; apply IH].
    unfold get_status. apply evolves_bind; [done | done | intros job].
    by apply evolves_getitem.
Qed.

Lemma braket_get_job_same_environ (job_arn : string) :
  evolves (same_on environ) (braket_get_job aws job_arn).
Proof.
  unfold braket_get_job. evolve same_on_prim.
Qed.

Lemma poll_braket_job_same_environ (job_arn : string) :
  evolves (same_on environ) (_poll_braket_job aws self job_arn).
Proof.
  pose proof (braket_get_job_same_environ job_arn) as Hget.
  unfold _poll_braket_job, poll_loop, get_status.
  evolve same_on_prim.
  apply poll_while_evolves; [apply _ | same_on_prim | done].
Qed.

Lemma query_result_same_environ (result_filename task_results_dir job_arn image_tag : string) :
  evolves (same_on environ)
    (_query_result aws self result_filename task_results_dir job_arn image_tag).
Proof.
  unfold _query_result, s3_download_file, fetch_logs, describe_log_streams, get_log_events.
  evolve same_on_prim. apply concat_messages_evolves; apply _.
Qed.

Lemma package_and_upload_same_environ (function : value)
    (image_tag task_results_dir result_filename : string)
    (args : list value) (kwargs : list (value * value)) :
  evolves (same_on environ)
    (_package_and_upload repr b64decode aws self function image_tag task_results_dir
       result_filename args kwargs).
Proof.
  unfold _package_and_upload, upload_function, build_image, push_image, with_tempfile,
    s3_upload_file, copyfile, ecr_get_authorization_token.
  evolve same_on_prim.
Qed.

End PipelineFrames.

(** C4: when the result object is a pickle, a log stream is found and
    every event has a message, [_query_result] returns the unpickled value,
    the messages in the order the log service gave them, each followed by
    a newline, and the empty string. *)
Theorem query_result_returns_triple {value} (aws : cloud value) (self : BraketExecutor)
    (result_filename task_results_dir job_arn image_tag : string)
    (v : value) (stream : dict) (others : list dict) (name : string)
    (msgs : list string) (w : world value) :
  fault aws (S3DownloadFile value (s3_bucket_name self) result_filename
               (Py.path_join task_results_dir result_filename)) = None ->
  fault aws (LogsDescribeLogStreams value "/aws/braket/jobs" (log_stream_prefix image_tag))
  = None ->
  fault aws (LogsGetLogEvents value "/aws/braket/jobs" name) = None ->
  s3_objects w !! (s3_bucket_name self, result_filename) = Some (Pickled v) ->
  log_streams aws "/aws/braket/jobs" (log_stream_prefix image_tag) = stream :: others ->
  stream !! "logStreamName" = Some name ->
  messages (log_events aws "/aws/braket/jobs" name) = Some msgs ->
  _query_result aws self result_filename task_results_dir job_arn image_tag w
  = (add_trace
       [S3DownloadFile value (s3_bucket_name self) result_filename
          (Py.path_join task_results_dir result_filename);
        LogsDescribeLogStreams value "/aws/braket/jobs" (log_stream_prefix image_tag);
        LogsGetLogEvents value "/aws/braket/jobs" name]
       (cleaned (Py.path_join task_results_dir result_filename) (Pickled v) w),
     inr (v, unlines msgs, "")).
Proof.
  intros Hdownload Hdescribe Hevents Hobj Hstreams Hname Hmsgs.
  rewrite (query_result_loaded aws self _ _ _ _ v w Hdownload Hobj).
  rewrite (fetch_logs_first_stream aws image_tag stream others name msgs _
             Hdescribe Hevents Hstreams Hname Hmsgs).
  f_equal. destruct w; unfold add_trace, cleaned, downloaded, set_files; simpl.
  by rewrite <- !app_assoc.
Qed.

Lemma query_result_returns_triple_witness :
  _query_result Scenario.services Scenario.executor "result-d1-1.pkl" "/results/d1"
    "arn:job" "d1-1" Scenario.completing
  = (add_trace
       [S3DownloadFile string "bucket" "result-d1-1.pkl" "/results/d1/result-d1-1.pkl";
        LogsDescribeLogStreams string "/aws/braket/jobs" "covalent-{image_tag}";
        LogsGetLogEvents string "/aws/braket/jobs" "stream-1"]
       (cleaned "/results/d1/result-d1-1.pkl" (Pickled "hello world") Scenario.completing),
     inr ("hello world", "a" +:+ nl +:+ "b" +:+ nl, "")).
Proof.
  apply (query_result_returns_triple Scenario.services Scenario.executor
           "result-d1-1.pkl" "/results/d1" "arn:job" "d1-1" "hello world"
           {[ "logStreamName" := "stream-1" ]} [] "stream-1" ["a"; "b"]
           Scenario.completing);
    reflexivity.
Defined.

(** C5: the prefix passed to the log service does not depend on the image
    tag. For the tags [d1-1] and [d2-7] the listing is asked for the same
    literal prefix, braces included; of the streams returned the first is
    read. *)
Theorem query_result_prefix_ignores_image_tag :
  trace (fst (_query_result Scenario.services Scenario.executor "result-d1-1.pkl"
                "/results/d1" "arn:job" "d1-1" Scenario.completing))
  = [S3DownloadFile string "bucket" "result-d1-1.pkl" "/results/d1/result-d1-1.pkl";
     LogsDescribeLogStreams string "/aws/braket/jobs" "covalent-{image_tag}";
     LogsGetLogEvents string "/aws/braket/jobs" "stream-1"]
  /\ trace (fst (_query_result Scenario.services Scenario.executor "result-d1-1.pkl"
                   "/results/d1" "arn:job" "d2-7" Scenario.completing))
     = [S3DownloadFile string "bucket" "result-d1-1.pkl" "/results/d1/result-d1-1.pkl";
        LogsDescribeLogStreams string "/aws/braket/jobs" "covalent-{image_tag}";
        LogsGetLogEvents string "/aws/braket/jobs" "stream-1"]
  /\ log_stream_prefix "d1-1" <> "covalent-d1-1".
Proof. repeat split. discriminate. Qed.

(** C6, as stated, fails: with no log stream the retrieval raises. *)
Lemma query_result_no_stream_raises :
  log_streams Scenario.services_no_stream "/aws/braket/jobs" (log_stream_prefix "d1-1") = []
  /\ snd (_query_result Scenario.services_no_stream Scenario.executor "result-d1-1.pkl"
            "/results/d1" "arn:job" "d1-1" Scenario.completing)
     = inl IndexError.
Proof. split; reflexivity. Qed.

(** C6, amended: when the log service lists no stream, [_query_result]
    raises [IndexError] after the result has been loaded and its local copy
    removed; no result value is returned. *)
Theorem query_result_no_stream {value} (aws : cloud value) (self : BraketExecutor)
    (result_filename task_results_dir job_arn image_tag : string)
    (v : value) (w : world value) :
  fault aws (S3DownloadFile value (s3_bucket_name self) result_filename
               (Py.path_join task_results_dir result_filename)) = None ->
  fault aws (LogsDescribeLogStreams value "/aws/braket/jobs" (log_stream_prefix image_tag))
  = None ->
  s3_objects w !! (s3_bucket_name self, result_filename) = Some (Pickled v) ->
  log_streams aws "/aws/braket/jobs" (log_stream_prefix image_tag) = [] ->
  _query_result aws self result_filename task_results_dir job_arn image_tag w
  = (add_trace
       [S3DownloadFile value (s3_bucket_name self) result_filename
          (Py.path_join task_results_dir result_filename);
        LogsDescribeLogStreams value "/aws/braket/jobs" (log_stream_prefix image_tag)]
       (cleaned (Py.path_join task_results_dir result_filename) (Pickled v) w),
     inl IndexError).
Proof.
  intros Hdownload Hdescribe Hobj Hstreams.
  rewrite (query_result_loaded aws self _ _ _ _ v w Hdownload Hobj).
  rewrite (fetch_logs_no_stream aws image_tag _ Hdescribe Hstreams).
  f_equal. destruct w; unfold add_trace, cleaned, downloaded, set_files; simpl.
  by rewrite <- !app_assoc.
Qed.

Lemma query_result_no_stream_witness :
  _query_result Scenario.services_no_stream Scenario.executor "result-d1-1.pkl"
    "/results/d1" "arn:job" "d1-1" Scenario.completing
  = (add_trace
       [S3DownloadFile string "bucket" "result-d1-1.pkl" "/results/d1/result-d1-1.pkl";
        LogsDescribeLogStreams string "/aws/braket/jobs" "covalent-{image_tag}"]
       (cleaned "/results/d1/result-d1-1.pkl" (Pickled "hello world") Scenario.completing),
     inl IndexError).
Proof.
  apply (query_result_no_stream Scenario.services_no_stream Scenario.executor
           "result-d1-1.pkl" "/results/d1" "arn:job" "d1-1" "hello world"
           Scenario.completing);
    reflexivity.
Defined.

(** C7, as stated, fails: when the downloaded object is not a pickle,
    loading raises and the local copy is still there afterwards. *)
Lemma query_result_keeps_copy_on_load_error :
  files (fst (_query_result Scenario.services Scenario.executor "result-d1-1.pkl"
                "/results/d1" "arn:job" "d1-1" Scenario.corrupted))
    !! "/results/d1/result-d1-1.pkl"
  = Some (Bytes "not a pickle")
  /\ snd (_query_result Scenario.services Scenario.executor "result-d1-1.pkl"
            "/results/d1" "arn:job" "d1-1" Scenario.corrupted)
     = inl UnpicklingError.
Proof. split; reflexivity. Qed.

(** C7, amended: after the download, the local copy is gone at the end of
    [_query_result] when the object is a pickle, whatever the fetching of
    the logs does; when it is not a pickle, loading raises and the copy
    stays. *)
Theorem query_result_scratch_copy {value} (aws : cloud value) (self : BraketExecutor)
    (result_filename task_results_dir job_arn image_tag : string)
    (c : content value) (w : world value) :
  fault aws (S3DownloadFile value (s3_bucket_name self) result_filename
               (Py.path_join task_results_dir result_filename)) = None ->
  s3_objects w !! (s3_bucket_name self, result_filename) = Some c ->
  match c with
  | Pickled _ =>
      files (fst (_query_result aws self result_filename task_results_dir job_arn
                    image_tag w))
        !! Py.path_join task_results_dir result_filename
      = None
  | Bytes _ =>
      _query_result aws self result_filename task_results_dir job_arn image_tag w
      = (add_trace
           [S3DownloadFile value (s3_bucket_name self) result_filename
              (Py.path_join task_results_dir result_filename)]
           (downloaded (Py.path_join task_results_dir result_filename) c w),
         inl UnpicklingError)
      /\ files (fst (_query_result aws self result_filename task_results_dir job_arn
                       image_tag w))
           !! Py.path_join task_results_dir result_filename
         = Some c
  end.
Proof.
  intros Hdownload Hobj. destruct c as [v|b].
  - rewrite (query_result_loaded aws self _ _ _ _ v w Hdownload Hobj).
    pose proof (fetch_logs_same_files aws image_tag
                  (add_trace
                     [S3DownloadFile value (s3_bucket_name self) result_filename
                        (Py.path_join task_results_dir result_filename)]
                     (cleaned (Py.path_join task_results_dir result_filename)
                        (Pickled v) w))) as Hfiles.
    unfold same_on in Hfiles.
    destruct (fetch_logs _ _ _) as [w' [x|logs]]; simpl in *;
      rewrite Hfiles; apply lookup_delete_eq.
  - rewrite (query_result_not_loaded aws self _ _ _ _ b w Hdownload Hobj).
    split; [done | apply lookup_insert_eq].
Qed.

Lemma query_result_scratch_copy_witness :
  files (fst (_query_result Scenario.services Scenario.executor "result-d1-1.pkl"
                "/results/d1" "arn:job" "d1-1" Scenario.completing))
    !! "/results/d1/result-d1-1.pkl"
  = None
  /\ files (fst (_query_result Scenario.services Scenario.executor "result-d1-1.pkl"
                   "/results/d1" "arn:job" "d1-1" Scenario.corrupted))
       !! "/results/d1/result-d1-1.pkl"
     = Some (Bytes "not a pickle").
Proof.
  split.
  - apply (query_result_scratch_copy Scenario.services Scenario.executor
             "result-d1-1.pkl" "/results/d1" "arn:job" "d1-1" (Pickled "hello world")
             Scenario.completing);
      reflexivity.
  - apply (query_result_scratch_copy Scenario.services Scenario.executor
             "result-d1-1.pkl" "/results/d1" "arn:job" "d1-1" (Bytes "not a pickle")
             Scenario.corrupted);
      reflexivity.
Defined.

(** ** The whole pipeline *)

(** C3, as stated, fails: with an identity that has no account, [execute]
    raises nothing; it returns [None], no logs and the identity. *)
Lemma execute_no_account_returns :
  sts_identity Scenario.services_no_account !! "Account" = None
  /\ snd (execute Scenario.py_repr Scenario.decoded Scenario.services_no_account
            Scenario.executor "f" ["x"] [] "d1" "/results" 1 Scenario.completing)
     = inr (None, "", inr (sts_identity Scenario.services_no_account)).
Proof. split; reflexivity. Qed.

(** C3, amended: when the identity call raises, [execute] ends with that
    exception; when the identity has no account, [execute] logs a warning
    and returns [(None, "", identity)]. Either way the only calls made are
    the identity call and the warning: nothing is packaged and no job is
    created. *)
Theorem execute_unresolved_identity {value} (repr : value -> string)
    (b64decode : string -> exn + string) (aws : cloud value) (self : BraketExecutor)
    (function : value) (args : list value) (kwargs : list (value * value))
    (dispatch_id results_dir : string) (node_id : Z) (w : world value) :
  fault aws (StsGetCallerIdentity value) <> None \/ sts_identity aws !! "Account" = None ->
  execute repr b64decode aws self function args kwargs dispatch_id results_dir node_id w
  = match fault aws (StsGetCallerIdentity value) with
    | Some x =>
        (add_trace [StsGetCallerIdentity value]
           (set_environ value
              (fun env => <["AWS_PROFILE" := profile self]>
                            (<["AWS_SHARED_CREDENTIALS_FILE" := credentials self]> env)) w),
         inl x)
    | None =>
        (add_trace [StsGetCallerIdentity value; AppLogWarning value (sts_identity aws)]
           (set_environ value
              (fun env => <["AWS_PROFILE" := profile self]>
                            (<["AWS_SHARED_CREDENTIALS_FILE" := credentials self]> env)) w),
         inr (None, "", inr (sts_identity aws)))
    end.
Proof.
  intros H. unfold execute, bind, call, modify. simpl.
  destruct (fault aws (StsGetCallerIdentity value)) as [x|] eqn:Hfault.
  - done.
  - destruct H as [H|H]; [done|]. rewrite H. simpl.
    destruct w; unfold add_trace, set_environ, log_event, ret; simpl.
    by rewrite <- !app_assoc.
Qed.

Lemma execute_unresolved_identity_witness :
  execute Scenario.py_repr Scenario.decoded Scenario.services_no_account
    Scenario.executor "f" ["x"] [] "d1" "/results" 1 Scenario.completing
  = (add_trace
       [StsGetCallerIdentity string;
        AppLogWarning string (sts_identity Scenario.services_no_account)]
       (set_environ string
          (fun env => <["AWS_PROFILE" := "default"]>
                        (<["AWS_SHARED_CREDENTIALS_FILE" := "/home/user/.aws/credentials"]>
                           env))
          Scenario.completing),
     inr (None, "", inr (sts_identity Scenario.services_no_account))).
Proof.
  apply (execute_unresolved_identity Scenario.py_repr Scenario.decoded
           Scenario.services_no_account Scenario.executor "f" ["x"] [] "d1" "/results" 1
           Scenario.completing).
  right. reflexivity.
Defined.



(** ** The build recipe *)

Lemma length_app_s (a b : string) :
  String.length (a +:+ b) = (String.length a + String.length b)%nat.
Proof.
  induction a as [|x a IH]; rewrite ?TagFacts.app_cons_s, ?TagFacts.app_nil_s; simpl;
    [done | by rewrite IH].
Qed.

Lemma app_inv_length (a1 a2 x1 x2 : string) :
  String.length a1 = String.length a2 ->
  a1 +:+ x1 = a2 +:+ x2 ->
  a1 = a2 /\ x1 = x2.
Proof.
  revert a2. induction a1 as [|c a1 IH]; intros [|d a2] Hlen H;
    rewrite ?TagFacts.app_cons_s, ?TagFacts.app_nil_s in H; simpl in Hlen; try done.
  injection H as -> H. destruct (IH a2) as [-> ->]; [lia | done | done].
Qed.

(** The Dockerfile text depends on the script's file name through its
    basename, and on nothing else of it. *)
Lemma format_dockerfile_basename (name1 name2 docker_working_dir : string) :
  _format_dockerfile name1 docker_working_dir = _format_dockerfile name2 docker_working_dir
  <-> Py.basename name1 = Py.basename name2.
Proof.
  unfold _format_dockerfile. split; [|by intros ->].
  generalize (Py.basename name1) (Py.basename name2). intros b1 b2 H.
  simpl in H. rewrite !app_assoc_s in H.
  repeat (apply TagFacts.append_inv_head in H).
  assert (Hlen : String.length b1 = String.length b2).
  { apply (f_equal String.length) in H. rewrite !length_app_s in H. simpl in H. lia. }
  by destruct (app_inv_length _ _ _ _ Hlen H).
Qed.

Section PackageFacts.

Context {value : Type} (repr : value -> string) (b64decode : string -> exn + string).
Context (aws : cloud value) (self : BraketExecutor).
Context (function : value) (image_tag task_results_dir result_filename : string).
Context (args : list value) (kwargs : list (value * value)).

Let func_filename : string := "func-" +:+ image_tag +:+ ".pkl".
Let local_dockerfile : string := Py.path_join task_results_dir ("Dockerfile_" +:+ image_tag).
Let exec_script : string :=
  _format_exec_script repr self func_filename result_filename docker_working_dir args kwargs.

Lemma upload_function_run (w : world value) :
  fault aws (S3UploadFile value (function_file self w) (s3_bucket_name self) func_filename)
  = None ->
  exists w',
    upload_function aws self function func_filename w = (w', inr tt)
    /\ trace w' = trace w
                  ++ [S3UploadFile value (function_file self w) (s3_bucket_name self)
                        func_filename]
    /\ tmp_count w' = S (tmp_count w)
    /\ tmp_stems w' = tmp_stems w.
Proof.
  intros Hfault. eexists.
  unfold upload_function, with_tempfile, NamedTemporaryFile, s3_upload_file, write_file,
    remove_file, finally, bind, call, modify.
  simpl. unfold function_file, nth_tmp_name in Hfault. simpl in Hfault.
  unfold tmp_name. rewrite Hfault. simpl.
  rewrite lookup_insert_eq. simpl. done.
Qed.

Lemma build_image_run (w : world value) :
  fault aws (CopyFile value (nth_tmp_name self w 1 "") local_dockerfile) = None ->
  exists w' r context,
    build_image repr aws self func_filename image_tag task_results_dir result_filename
      args kwargs w = (w', r)
    /\ trace w' = trace w
                  ++ [CopyFile value (nth_tmp_name self w 1 "") local_dockerfile;
                      DockerBuild value (cache_dir self) (nth_tmp_name self w 1 "") image_tag
                        context]
    /\ context !! nth_tmp_name self w 1 ""
       = Some (Bytes (_format_dockerfile (nth_tmp_name self w 0 ".py") docker_working_dir))
    /\ (nth_tmp_name self w 0 ".py" <> nth_tmp_name self w 1 "" ->
        nth_tmp_name self w 0 ".py" <> local_dockerfile ->
        context !! nth_tmp_name self w 0 ".py" = Some (Bytes exec_script)).
Proof.
  intros Hcopy.
  unfold build_image, with_tempfile, NamedTemporaryFile, docker_build, copyfile, write_file,
    remove_file, finally, bind, call, modify.
  simpl. unfold tmp_name, nth_tmp_name in *. simpl in *. fold local_dockerfile.
  rewrite Hcopy. simpl. rewrite lookup_insert_eq. simpl.
  destruct (fault aws (DockerBuild _ _ _ _ _)) as [x|]; simpl;
    (do 3 eexists; split; [reflexivity|]; split;
     [cbn [trace set_files log_event]; by rewrite <- ?app_assoc|]; split).
  all: try (intros Hne1 Hne2; rewrite lookup_insert_ne by done;
            rewrite lookup_insert_ne by done; apply lookup_insert_eq).
  all: destruct (decide (local_dockerfile
                         = Py.path_join (cache_dir self)
                             ("tmp" +:+ tmp_stems w (S (tmp_count w)) +:+ ""))) as [->|Hne];
    [apply lookup_insert_eq | rewrite lookup_insert_ne by done; apply lookup_insert_eq].
Qed.

Lemma push_image_trace_grows :
  evolves trace_grows (push_image b64decode aws self image_tag).
Proof.
  unfold push_image, ecr_get_authorization_token. evolve trace_grows_prim.
Qed.

(** The calls of a packaging run whose upload and copy succeed begin with
    the upload, the copy and the build; the build reads the Dockerfile
    written for the temporary script file and, the names being distinct,
    the script. *)
Lemma package_and_upload_calls (w : world value) :
  fault aws (S3UploadFile value (function_file self w) (s3_bucket_name self) func_filename)
  = None ->
  fault aws (CopyFile value (dockerfile_file self w) local_dockerfile) = None ->
  exists context tail,
    calls (_package_and_upload repr b64decode aws self function image_tag task_results_dir
             result_filename args kwargs) w
    = [S3UploadFile value (function_file self w) (s3_bucket_name self) func_filename;
       CopyFile value (dockerfile_file self w) local_dockerfile;
       DockerBuild value (cache_dir self) (dockerfile_file self w) image_tag context]
      ++ tail
    /\ context !! dockerfile_file self w
       = Some (Bytes (_format_dockerfile (exec_script_file self w) docker_working_dir))
    /\ (exec_script_file self w <> dockerfile_file self w ->
        exec_script_file self w <> local_dockerfile ->
        context !! exec_script_file self w = Some (Bytes exec_script)).
Proof.
  intros Hfault Hcopy.
  destruct (upload_function_run w Hfault) as (w1 & Hrun1 & Htrace1 & Hcount1 & Hstems1).
  assert (Hs : nth_tmp_name self w1 0 ".py" = exec_script_file self w)
    by (unfold exec_script_file, nth_tmp_name; by rewrite Hstems1, Hcount1).
  assert (Hd : nth_tmp_name self w1 1 "" = dockerfile_file self w)
    by (unfold dockerfile_file, nth_tmp_name; by rewrite Hstems1, Hcount1).
  rewrite <- Hd in Hcopy.
  destruct (build_image_run w1 Hcopy)
    as (w2 & r & context & Hrun2 & Htrace2 & Hdocker & Hscript).
  rewrite Hs, Hd in *.
  assert (Hcalls : exists tail,
             trace (fst (_package_and_upload repr b64decode aws self function image_tag
                           task_results_dir result_filename args kwargs w))
             = trace w2 ++ tail).
  { unfold _package_and_upload, bind. fold func_filename. rewrite Hrun1, Hrun2.
    destruct r as [x|[]]; simpl.
    - exists []. by rewrite app_nil_r.
    - apply (push_image_trace_grows w2). }
  destruct Hcalls as [tail Hcalls].
  exists context, tail. split; [|done].
  unfold calls. rewrite Hcalls, Htrace2, Htrace1, <- !app_assoc.
  by rewrite drop_app_length.
Qed.

End PackageFacts.

(** C10, as stated, fails: two packaging runs with the same callable,
    arguments, tag and configuration, in which [tempfile] picks different
    names, build from different Dockerfile texts. *)
Lemma package_recipe_differs :
  built_dockerfile Scenario.packaging Scenario.first_run
  <> built_dockerfile Scenario.packaging Scenario.second_run.
Proof. vm_compute. discriminate. Qed.

(** C10, amended: in a packaging run whose upload succeeds and whose copy
    of the Dockerfile into the results directory succeeds, the build reads
    the execution script formatted from the tag, the result file name, the
    bucket and the text [str] gives for the arguments, so the scripts of
    two runs with the same inputs are the same text when the arguments
    render to the same text in both; the Dockerfile the build reads names
    the script by the basename of its temporary file, so the two runs
    build from the same Dockerfile text exactly when those basenames are
    equal. [repr1] and [repr2] are what [repr] gives in either run. *)
Theorem package_recipe_texts {value} (repr1 repr2 : value -> string)
    (b64decode : string -> exn + string)
    (aws : cloud value) (self : BraketExecutor) (function : value)
    (image_tag task_results_dir result_filename : string)
    (args : list value) (kwargs : list (value * value)) (w1 w2 : world value) :
  fault aws (S3UploadFile value (function_file self w1) (s3_bucket_name self)
               ("func-" +:+ image_tag +:+ ".pkl")) = None ->
  fault aws (S3UploadFile value (function_file self w2) (s3_bucket_name self)
               ("func-" +:+ image_tag +:+ ".pkl")) = None ->
  fault aws (CopyFile value (dockerfile_file self w1)
               (Py.path_join task_results_dir ("Dockerfile_" +:+ image_tag))) = None ->
  fault aws (CopyFile value (dockerfile_file self w2)
               (Py.path_join task_results_dir ("Dockerfile_" +:+ image_tag))) = None ->
  exec_script_file self w1 <> dockerfile_file self w1 ->
  exec_script_file self w1 <> Py.path_join task_results_dir ("Dockerfile_" +:+ image_tag) ->
  exec_script_file self w2 <> dockerfile_file self w2 ->
  exec_script_file self w2 <> Py.path_join task_results_dir ("Dockerfile_" +:+ image_tag) ->
  let run1 :=
    _package_and_upload repr1 b64decode aws self function image_tag task_results_dir
      result_filename args kwargs in
  let run2 :=
    _package_and_upload repr2 b64decode aws self function image_tag task_results_dir
      result_filename args kwargs in
  built_file (exec_script_file self w1) run1 w1
  = Some (Bytes (_format_exec_script repr1 self ("func-" +:+ image_tag +:+ ".pkl")
                   result_filename docker_working_dir args kwargs))
  /\ built_file (exec_script_file self w2) run2 w2
     = Some (Bytes (_format_exec_script repr2 self ("func-" +:+ image_tag +:+ ".pkl")
                      result_filename docker_working_dir args kwargs))
  /\ (str_list value repr1 args = str_list value repr2 args ->
      str_dict value repr1 kwargs = str_dict value repr2 kwargs ->
      built_file (exec_script_file self w1) run1 w1
      = built_file (exec_script_file self w2) run2 w2)
  /\ built_dockerfile run1 w1
     = Some (Bytes (_format_dockerfile (exec_script_file self w1) docker_working_dir))
  /\ built_dockerfile run2 w2
     = Some (Bytes (_format_dockerfile (exec_script_file self w2) docker_working_dir))
  /\ (built_dockerfile run1 w1 = built_dockerfile run2 w2
      <-> Py.basename (exec_script_file self w1) = Py.basename (exec_script_file self w2)).
Proof.
  intros Hup1 Hup2 Hcopy1 Hcopy2 Hd1 Hl1 Hd2 Hl2 run1 run2.
  destruct (package_and_upload_calls repr1 b64decode aws self function image_tag
              task_results_dir result_filename args kwargs w1 Hup1 Hcopy1)
    as (c1 & t1 & Hcalls1 & Hdocker1 & Hscript1).
  destruct (package_and_upload_calls repr2 b64decode aws self function image_tag
              task_results_dir result_filename args kwargs w2 Hup2 Hcopy2)
    as (c2 & t2 & Hcalls2 & Hdocker2 & Hscript2).
  assert (Hb1 : built_dockerfile run1 w1
                = Some (Bytes (_format_dockerfile (exec_script_file self w1)
                                 docker_working_dir)))
    by (unfold built_dockerfile, run1; rewrite Hcalls1; simpl; done).
  assert (Hb2 : built_dockerfile run2 w2
                = Some (Bytes (_format_dockerfile (exec_script_file self w2)
                                 docker_working_dir)))
    by (unfold built_dockerfile, run2; rewrite Hcalls2; simpl; done).
  assert (Hs1 : built_file (exec_script_file self w1) run1 w1
                = Some (Bytes (_format_exec_script repr1 self
                                 ("func-" +:+ image_tag +:+ ".pkl") result_filename
                                 docker_working_dir args kwargs)))
    by (unfold built_file, run1; rewrite Hcalls1; simpl; by apply Hscript1).
  assert (Hs2 : built_file (exec_script_file self w2) run2 w2
                = Some (Bytes (_format_exec_script repr2 self
                                 ("func-" +:+ image_tag +:+ ".pkl") result_filename
                                 docker_working_dir args kwargs)))
    by (unfold built_file, run2; rewrite Hcalls2; simpl; by apply Hscript2).
  split; [done|]. split; [done|]. split; [|split; [done|split; [done|split]]].
  - intros Hargs Hkwargs. rewrite Hs1, Hs2. unfold _format_exec_script.
    by rewrite Hargs, Hkwargs.
  - rewrite Hb1, Hb2. intros H.
    apply (format_dockerfile_basename _ _ docker_working_dir). congruence.
  - rewrite Hb1, Hb2. intros H. do 2 f_equal. by apply format_dockerfile_basename.
Qed.

Lemma package_recipe_texts_witness :
  built_dockerfile Scenario.packaging Scenario.first_run
  = built_dockerfile Scenario.packaging Scenario.second_run
  <-> Py.basename (exec_script_file Scenario.executor Scenario.first_run)
      = Py.basename (exec_script_file Scenario.executor Scenario.second_run).
Proof.
  refine (proj2 (proj2 (proj2 (proj2 (proj2
    (package_recipe_texts Scenario.py_repr Scenario.py_repr Scenario.decoded
       Scenario.services
       Scenario.executor "f" "d1-1" "/results/d1" "result-d1-1.pkl" ["x"] []
       Scenario.first_run Scenario.second_run _ _ _ _ _ _ _ _))))));
    first [reflexivity | vm_compute; discriminate].
Defined.

(** ** End-to-end runs *)

(** Statuses QUEUED, RUNNING, COMPLETED: the run returns the stored
    result and the logs. *)
Example execute_completing :
  snd (execute Scenario.py_repr Scenario.decoded Scenario.services Scenario.executor
         "f" ["x"] [] "d1" "/results" 1 Scenario.completing)
  = inr (Some "hello world", "a" +:+ nl +:+ "b" +:+ nl, inl "").
Proof. reflexivity. Qed.

(** Statuses QUEUED, FAILED: the run raises with the reason, and neither
    the object store nor the log service is asked for anything after the
    polling. *)
Example execute_failing :
  snd (execute Scenario.py_repr Scenario.decoded Scenario.services Scenario.executor
         "f" ["x"] [] "d1" "/results" 1 Scenario.failing)
  = inl (Raise "Exception" "error")
  /\ last (trace (fst (execute Scenario.py_repr Scenario.decoded Scenario.services
                        Scenario.executor "f" ["x"] [] "d1" "/results" 1
                        Scenario.failing)))
     = Some (BraketGetJob string "arn:job").
Proof. split; reflexivity. Qed.

(** * Further properties of the pipeline *)

(** ** Polling: errors and what it leaves alone *)

Section PollErrors.

Context {value : Type} (aws : cloud value) (self : BraketExecutor) (job_arn : string).

Hypothesis get_job_answers : fault aws (BraketGetJob value job_arn) = None.
Hypothesis sleep_returns : fault aws (Sleep value (poll_freq self)) = None.

Lemma get_status_missing (job : dict) (rest : list dict) (w : world value) :
  job_answers w = job :: rest -> job !! "status" = None ->
  get_status aws job_arn w
  = (set_job_answers value rest (log_event value (BraketGetJob value job_arn) w),
     inl (KeyError "status")).
Proof.
  intros Hw Hs. unfold get_status, bind.
  rewrite (braket_get_job_next aws job_arn get_job_answers job rest w Hw).
  unfold getitem. by rewrite Hs.
Qed.

Lemma poll_while_missing (bad : dict) (rest : list dict) :
  bad !! "status" = None ->
  forall (pre : list dict) (w : world value) (s : string) (fuel : nat),
    is_terminal s = false ->
    forallb is_pending pre = true ->
    job_answers w = pre ++ bad :: rest ->
    (length pre < fuel)%nat ->
    poll_while aws self fuel job_arn s w
    = (add_trace (concat (repeat (poll_round self job_arn) (S (length pre))))
         (set_job_answers value rest w), inl (KeyError "status")).
Proof.
  intros Hbad. induction pre as [|job pre IH]; intros w s fuel Hs Hpre Hw Hfuel.
  - destruct fuel as [|fuel]; [simpl in Hfuel; lia|].
    simpl. rewrite Hs. unfold bind at 1. unfold call. rewrite sleep_returns.
    unfold bind at 1.
    rewrite (get_status_missing bad rest
               (log_event value (Sleep value (poll_freq self)) w) Hw Hbad).
    destruct w; unfold add_trace, set_job_answers, log_event; simpl.
    by rewrite <- !app_assoc.
  - destruct fuel as [|fuel]; [simpl in Hfuel; lia|].
    simpl in Hpre. apply andb_true_iff in Hpre as [Hjob Hpre].
    destruct (is_pending_status job Hjob) as (s' & Hs' & Hterm).
    simpl. rewrite Hs. unfold bind at 1. unfold call. rewrite sleep_returns.
    unfold bind at 1.
    rewrite (get_status_next aws job_arn get_job_answers job s' (pre ++ bad :: rest)
               (log_event value (Sleep value (poll_freq self)) w) Hw Hs').
    erewrite IH; [| done | done | reflexivity | simpl in Hfuel; lia].
    destruct w; unfold add_trace, set_job_answers, log_event; simpl.
    by rewrite <- !app_assoc.
Qed.

Lemma poll_loop_missing (pre : list dict) (bad : dict) (rest : list dict)
    (w : world value) :
  forallb is_pending pre = true ->
  bad !! "status" = None ->
  job_answers w = pre ++ bad :: rest ->
  poll_loop aws self job_arn w
  = (add_trace (poll_trace self job_arn (length pre)) (set_job_answers value rest w),
     inl (KeyError "status")).
Proof.
  intros Hpre Hbad Hw. unfold poll_loop. destruct pre as [|job pre].
  - unfold bind at 1. rewrite (get_status_missing bad rest w Hw Hbad).
    destruct w; unfold add_trace, set_job_answers, log_event; simpl. done.
  - simpl in Hpre. apply andb_true_iff in Hpre as [Hjob Hpre].
    destruct (is_pending_status job Hjob) as (s & Hs & Hterm).
    unfold bind at 1.
    rewrite (get_status_next aws job_arn get_job_answers job s (pre ++ bad :: rest) w Hw Hs).
    unfold bind at 1. unfold gets.
    erewrite (poll_while_missing bad rest Hbad pre);
      [| done | done | reflexivity | simpl; rewrite length_app; simpl; lia].
    destruct w; unfold add_trace, poll_trace, set_job_answers, log_event; simpl.
    by rewrite <- !app_assoc.
Qed.

End PollErrors.

(** X1: an answer of the job service that has no [status] key ends the
    polling with [KeyError("status")], after the queries and sleeps for the
    pending answers before it; the answers after it are not read. *)
Theorem poll_answer_without_status {value} (aws : cloud value) (self : BraketExecutor)
    (job_arn : string) (pre : list dict) (bad : dict) (rest : list dict)
    (w : world value) :
  fault aws (BraketGetJob value job_arn) = None ->
  fault aws (Sleep value (poll_freq self)) = None ->
  forallb is_pending pre = true ->
  bad !! "status" = None ->
  job_answers w = pre ++ bad :: rest ->
  _poll_braket_job aws self job_arn w
  = (add_trace (poll_trace self job_arn (length pre)) (set_job_answers value rest w),
     inl (KeyError "status")).
Proof.
  intros Hget Hsleep Hpre Hbad Hw. unfold _poll_braket_job, bind.
  by rewrite (poll_loop_missing aws self job_arn Hget Hsleep pre bad rest w Hpre Hbad Hw).
Qed.

Lemma poll_answer_without_status_witness :
  _poll_braket_job Scenario.services Scenario.executor "arn:job" Cases.answer_without_status
  = (add_trace (poll_trace Scenario.executor "arn:job" 1)
       (set_job_answers string [Scenario.status_answer "COMPLETED"]
          Cases.answer_without_status),
     inl (KeyError "status")).
Proof.
  apply (poll_answer_without_status Scenario.services Scenario.executor "arn:job"
           [Scenario.status_answer "QUEUED"] {[ "jobArn" := "arn:job" ]}
           [Scenario.status_answer "COMPLETED"] Cases.answer_without_status);
    reflexivity.
Defined.

(** X2: when the first terminal status is FAILED and the answer of the
    further [get_job] call has no [failureReason], the polling raises
    [KeyError("failureReason")] in place of the exception that carries the
    reason. *)
Theorem poll_failed_without_reason {value} (aws : cloud value) (self : BraketExecutor)
    (job_arn : string) (pre : list dict) (last job : dict) (rest : list dict)
    (w : world value) :
  fault aws (BraketGetJob value job_arn) = None ->
  fault aws (Sleep value (poll_freq self)) = None ->
  forallb is_pending pre = true ->
  last !! "status" = Some "FAILED" ->
  job !! "failureReason" = None ->
  job_answers w = pre ++ last :: job :: rest ->
  _poll_braket_job aws self job_arn w
  = (add_trace (poll_trace self job_arn (length pre) ++ [BraketGetJob value job_arn])
       (set_job_answers value rest w),
     inl (KeyError "failureReason")).
Proof.
  intros Hget Hsleep Hpre Hlast Hreason Hw.
  unfold _poll_braket_job. unfold bind at 1.
  rewrite (poll_loop_rounds aws self job_arn Hget Hsleep pre last "FAILED" (job :: rest) w
             Hpre Hlast eq_refl Hw).
  simpl. unfold bind at 1.
  erewrite (braket_get_job_next aws job_arn Hget job rest); [|reflexivity].
  unfold bind, getitem. rewrite Hreason. unfold raise.
  destruct w; unfold add_trace, set_job_answers, log_event; simpl.
  by rewrite <- !app_assoc.
Qed.

Lemma poll_failed_without_reason_witness :
  _poll_braket_job Scenario.services Scenario.executor "arn:job"
    Cases.failure_without_reason
  = (add_trace (poll_trace Scenario.executor "arn:job" 0 ++ [BraketGetJob string "arn:job"])
       (set_job_answers string [] Cases.failure_without_reason),
     inl (KeyError "failureReason")).
Proof.
  apply (poll_failed_without_reason Scenario.services Scenario.executor "arn:job"
           [] (Scenario.status_answer "FAILED") (Scenario.status_answer "FAILED") []
           Cases.failure_without_reason);
    reflexivity.
Defined.

Global Instance adds_preorder {value} (P : event value -> bool) : PreOrder (adds P).
Proof.
  split.
  - intros w. exists []. by rewrite app_nil_r.
  - intros w1 w2 w3 (es1 & H1 & HP1) (es2 & H2 & HP2). exists (es1 ++ es2).
    rewrite H2, H1, <- app_assoc. split; [done|].
    rewrite forallb_app. by rewrite HP1, HP2.
Qed.

(** Closes a step that records at most one call, which is in [P]. *)
Ltac adds_prim :=
  let w := fresh "w" in
  intros w;
  unfold adds, docker_build, write_file, remove_file, NamedTemporaryFile,
    pickle_load, os_remove, call, modify;
  simpl; repeat case_match; simpl;
  first [ exists []; split; [by rewrite app_nil_r | reflexivity]
        | eexists [_]; split; [reflexivity | reflexivity] ].

Section StageFrames.

Context {value : Type} (aws : cloud value) (self : BraketExecutor).
Context (R : relation (world value)) `{!PreOrder R}.

Lemma poll_braket_job_evolves (job_arn : string) :
  evolves R (call aws (Sleep value (poll_freq self))) ->
  evolves R (braket_get_job aws job_arn) ->
  evolves R (_poll_braket_job aws self job_arn).
Proof.
  intros Hsleep Hget. unfold _poll_braket_job, poll_loop, get_status.
  evolve fail.
  apply poll_while_evolves; [apply _ | done | done].
Qed.

Lemma query_result_evolves (result_filename task_results_dir job_arn image_tag : string) :
  evolves R (s3_download_file value aws (s3_bucket_name self) result_filename
               (Py.path_join task_results_dir result_filename)) ->
  evolves R (pickle_load value (Py.path_join task_results_dir result_filename)) ->
  evolves R (os_remove value (Py.path_join task_results_dir result_filename)) ->
  evolves R (call aws (LogsDescribeLogStreams value "/aws/braket/jobs"
                         (log_stream_prefix image_tag))) ->
  (forall name, evolves R (call aws (LogsGetLogEvents value "/aws/braket/jobs" name))) ->
  evolves R (_query_result aws self result_filename task_results_dir job_arn image_tag).
Proof.
  intros Hdownload Hload Hremove Hdescribe Hevents.
  unfold _query_result, fetch_logs, describe_log_streams, get_log_events.
  evolve_with ltac:(first [assumption | apply Hevents]) fail.
  apply concat_messages_evolves; apply _.
Qed.

End StageFrames.

(** X4: whatever the job service answers, the polling calls nothing but
    [get_job] and the sleep, and leaves the process environment, the local
    files, the object store and the supply of temporary names as they
    were. *)
Theorem poll_only_queries_and_sleeps {value} (aws : cloud value) (self : BraketExecutor)
    (job_arn : string) (w : world value) :
  adds is_poll_call w (fst (_poll_braket_job aws self job_arn w))
  /\ environ (fst (_poll_braket_job aws self job_arn w)) = environ w
  /\ files (fst (_poll_braket_job aws self job_arn w)) = files w
  /\ s3_objects (fst (_poll_braket_job aws self job_arn w)) = s3_objects w
  /\ tmp_count (fst (_poll_braket_job aws self job_arn w)) = tmp_count w.
Proof.
  repeat split.
  - apply (poll_braket_job_evolves aws self (adds is_poll_call));
      [adds_prim | unfold braket_get_job; evolve adds_prim].
  - apply (poll_braket_job_evolves aws self (same_on environ));
      [same_on_prim | unfold braket_get_job; evolve same_on_prim].
  - apply (poll_braket_job_evolves aws self (same_on files));
      [same_on_prim | unfold braket_get_job; evolve same_on_prim].
  - apply (poll_braket_job_evolves aws self (same_on s3_objects));
      [same_on_prim | unfold braket_get_job; evolve same_on_prim].
  - apply (poll_braket_job_evolves aws self (same_on tmp_count));
      [same_on_prim | unfold braket_get_job; evolve same_on_prim].
Qed.

(** ** Retrieval: errors and what it leaves alone *)

Lemma concat_messages_missing {value} (events : list dict) :
  messages events = None ->
  forall (acc : string) (w : world value),
    concat_messages events acc w = (w, inl (KeyError "message")).
Proof.
  induction events as [|event events IH]; intros Hm acc w; [done|].
  simpl in Hm. simpl. unfold bind, getitem.
  destruct (event !! "message") as [m|]; [|done].
  simpl. apply IH. by destruct (messages events).
Qed.



(** X6: once the result has been downloaded and unpickled, the local files
    at the end of the retrieval are those at its start without the file at
    the local result path, whether the logs are fetched or fetching them
    raises; a file that was at that path before is lost. *)
Theorem query_result_local_files {value} (aws : cloud value) (self : BraketExecutor)
    (result_filename task_results_dir job_arn image_tag : string)
    (v : value) (w : world value) :
  fault aws (S3DownloadFile value (s3_bucket_name self) result_filename
               (Py.path_join task_results_dir result_filename)) = None ->
  s3_objects w !! (s3_bucket_name self, result_filename) = Some (Pickled v) ->
  files (fst (_query_result aws self result_filename task_results_dir job_arn image_tag w))
  = delete (Py.path_join task_results_dir result_filename) (files w).
Proof.
  intros Hdownload Hobj.
  rewrite (query_result_loaded aws self _ _ _ _ v w Hdownload Hobj).
  pose proof (fetch_logs_same_files aws image_tag
                (add_trace
                   [S3DownloadFile value (s3_bucket_name self) result_filename
                      (Py.path_join task_results_dir result_filename)]
                   (cleaned (Py.path_join task_results_dir result_filename)
                      (Pickled v) w))) as Hfiles.
  unfold same_on in Hfiles.
  destruct (fetch_logs _ _ _) as [w' [x|logs]]; simpl in *;
    rewrite Hfiles; apply delete_insert_eq.
Qed.

Lemma query_result_local_files_witness :
  files (fst (_query_result Scenario.services_no_stream Scenario.executor
                "result-d1-1.pkl" "/results/d1" "arn:job" "d1-1" Scenario.completing))
  = delete "/results/d1/result-d1-1.pkl" (files Scenario.completing).
Proof.
  apply (query_result_local_files Scenario.services_no_stream Scenario.executor
           "result-d1-1.pkl" "/results/d1" "arn:job" "d1-1" "hello world"
           Scenario.completing);
    reflexivity.
Defined.

(** X7: when a log event has no [message] key, the retrieval raises
    [KeyError("message")] after the result has been unpickled and its local
    copy removed: neither the result nor the messages read so far are
    returned. *)
Theorem query_result_event_without_message {value} (aws : cloud value)
    (self : BraketExecutor)
    (result_filename task_results_dir job_arn image_tag : string)
    (v : value) (stream : dict) (others : list dict) (name : string) (w : world value) :
  fault aws (S3DownloadFile value (s3_bucket_name self) result_filename
               (Py.path_join task_results_dir result_filename)) = None ->
  fault aws (LogsDescribeLogStreams value "/aws/braket/jobs" (log_stream_prefix image_tag))
  = None ->
  fault aws (LogsGetLogEvents value "/aws/braket/jobs" name) = None ->
  s3_objects w !! (s3_bucket_name self, result_filename) = Some (Pickled v) ->
  log_streams aws "/aws/braket/jobs" (log_stream_prefix image_tag) = stream :: others ->
  stream !! "logStreamName" = Some name ->
  messages (log_events aws "/aws/braket/jobs" name) = None ->
  _query_result aws self result_filename task_results_dir job_arn image_tag w
  = (add_trace
       [S3DownloadFile value (s3_bucket_name self) result_filename
          (Py.path_join task_results_dir result_filename);
        LogsDescribeLogStreams value "/aws/braket/jobs" (log_stream_prefix image_tag);
        LogsGetLogEvents value "/aws/braket/jobs" name]
       (cleaned (Py.path_join task_results_dir result_filename) (Pickled v) w),
     inl (KeyError "message")).
Proof.
  intros Hdownload Hdescribe Hevents Hobj Hstreams Hname Hmsgs.
  rewrite (query_result_loaded aws self _ _ _ _ v w Hdownload Hobj).
  unfold fetch_logs, describe_log_streams, get_log_events, bind, call.
  rewrite Hdescribe. simpl. rewrite Hstreams. simpl.
  unfold getitem. rewrite Hname. simpl. rewrite Hevents. simpl.
  rewrite (concat_messages_missing _ Hmsgs).
  f_equal. destruct w; unfold add_trace, cleaned, downloaded, set_files, log_event; simpl.
  by rewrite <- !app_assoc.
Qed.

Lemma query_result_event_without_message_witness :
  _query_result Cases.services_bad_event Scenario.executor "result-d1-1.pkl"
    "/results/d1" "arn:job" "d1-1" Scenario.completing
  = (add_trace
       [S3DownloadFile string "bucket" "result-d1-1.pkl" "/results/d1/result-d1-1.pkl";
        LogsDescribeLogStreams string "/aws/braket/jobs" "covalent-{image_tag}";
        LogsGetLogEvents string "/aws/braket/jobs" "stream-1"]
       (cleaned "/results/d1/result-d1-1.pkl" (Pickled "hello world") Scenario.completing),
     inl (KeyError "message")).
Proof.
  apply (query_result_event_without_message Cases.services_bad_event Scenario.executor
           "result-d1-1.pkl" "/results/d1" "arn:job" "d1-1" "hello world"
           {[ "logStreamName" := "stream-1" ]} [] "stream-1" Scenario.completing);
    reflexivity.
Defined.

(** X8: whatever the services answer, the retrieval calls nothing but the
    download and the two log queries, so it creates no job and uploads
    nothing; it leaves the process environment, the object store and the
    answers of the job service as they were. *)
Theorem query_result_only_reads {value} (aws : cloud value) (self : BraketExecutor)
    (result_filename task_results_dir job_arn image_tag : string) (w : world value) :
  adds is_retrieval_call w
    (fst (_query_result aws self result_filename task_results_dir job_arn image_tag w))
  /\ environ (fst (_query_result aws self result_filename task_results_dir job_arn
                     image_tag w))
     = environ w
  /\ s3_objects (fst (_query_result aws self result_filename task_results_dir job_arn
                        image_tag w))
     = s3_objects w
  /\ job_answers (fst (_query_result aws self result_filename task_results_dir job_arn
                         image_tag w))
     = job_answers w.
Proof.
  repeat split.
  - apply (query_result_evolves aws self (adds is_retrieval_call));
      [unfold s3_download_file; evolve adds_prim | adds_prim | adds_prim | adds_prim | intros name; adds_prim].
  - apply (query_result_evolves aws self (same_on environ));
      [unfold s3_download_file; evolve same_on_prim | same_on_prim | same_on_prim | same_on_prim | intros name; same_on_prim].
  - apply (query_result_evolves aws self (same_on s3_objects));
      [unfold s3_download_file; evolve same_on_prim | same_on_prim | same_on_prim | same_on_prim | intros name; same_on_prim].
  - apply (query_result_evolves aws self (same_on job_answers));
      [unfold s3_download_file; evolve same_on_prim | same_on_prim | same_on_prim | same_on_prim | intros name; same_on_prim].
Qed.

(** ** Packaging: the local files and the object store *)

Section PackageFiles.

Context {value : Type} (repr : value -> string) (b64decode : string -> exn + string).
Context (aws : cloud value) (self : BraketExecutor).
Context (function : value) (image_tag task_results_dir result_filename : string).
Context (args : list value) (kwargs : list (value * value)).

Let func_filename : string := "func-" +:+ image_tag +:+ ".pkl".
Let local_dockerfile : string := Py.path_join task_results_dir ("Dockerfile_" +:+ image_tag).
Let exec_script : string :=
  _format_exec_script repr self func_filename result_filename docker_working_dir args kwargs.
Let upload (w : world value) : event value :=
  S3UploadFile value (function_file self w) (s3_bucket_name self) func_filename.

(** The first block, whether the upload raises or not. *)
Lemma upload_function_world (w : world value) :
  exists w',
    upload_function aws self function func_filename w
    = (w', match fault aws (upload w) with Some x => inl x | None => inr tt end)
    /\ files w' = delete (function_file self w) (files w)
    /\ s3_objects w'
       = match fault aws (upload w) with
         | Some _ => s3_objects w
         | None => <[(s3_bucket_name self, func_filename) := Pickled function]> (s3_objects w)
         end
    /\ tmp_count w' = S (tmp_count w)
    /\ tmp_stems w' = tmp_stems w.
Proof.
  unfold upload, upload_function, with_tempfile, NamedTemporaryFile, s3_upload_file,
    write_file, remove_file, finally, bind, call, modify.
  simpl. unfold function_file, nth_tmp_name, tmp_name. simpl.
  destruct (fault aws _) as [x|]; simpl.
  - eexists. split; [reflexivity|]. simpl. by rewrite !delete_insert_eq.
  - rewrite lookup_insert_eq. simpl.
    eexists. split; [reflexivity|]. simpl. by rewrite !delete_insert_eq.
Qed.

(** The second block, whether the copy and the build raise or not: both
    temporary files are removed, and the copy of the Dockerfile stays when
    it was made. *)
Lemma build_image_world (w : world value) :
  exists w' r,
    build_image repr aws self func_filename image_tag task_results_dir result_filename
      args kwargs w = (w', r)
    /\ files w'
       = delete (nth_tmp_name self w 0 ".py")
           (delete (nth_tmp_name self w 1 "")
              (match fault aws (CopyFile value (nth_tmp_name self w 1 "") local_dockerfile)
               with
               | Some _ => fun m => m
               | None =>
                   <[local_dockerfile :=
                       Bytes (_format_dockerfile (nth_tmp_name self w 0 ".py")
                                docker_working_dir)]>
               end
                 (<[nth_tmp_name self w 1 "" :=
                      Bytes (_format_dockerfile (nth_tmp_name self w 0 ".py")
                               docker_working_dir)]>
                    (<[nth_tmp_name self w 0 ".py" := Bytes exec_script]>
                       (<[nth_tmp_name self w 1 "" := Bytes ""]>
                          (<[nth_tmp_name self w 0 ".py" := Bytes ""]> (files w)))))))
    /\ s3_objects w' = s3_objects w.
Proof.
  unfold build_image, with_tempfile, NamedTemporaryFile, docker_build, copyfile, write_file,
    remove_file, finally, bind, call, modify.
  simpl. unfold tmp_name, nth_tmp_name. simpl.
  destruct (fault aws (CopyFile _ _ _)) as [x|]; simpl.
  - do 2 eexists. split; [reflexivity|]. done.
  - rewrite lookup_insert_eq. simpl.
    destruct (fault aws _) as [x|]; simpl; do 2 eexists; (split; [reflexivity|]); done.
Qed.

Lemma push_image_same_files :
  evolves (same_on files) (push_image b64decode aws self image_tag).
Proof. unfold push_image, ecr_get_authorization_token. evolve same_on_prim. Qed.

Lemma push_image_same_s3_objects :
  evolves (same_on s3_objects) (push_image b64decode aws self image_tag).
Proof. unfold push_image, ecr_get_authorization_token. evolve same_on_prim. Qed.

(** The local files and the object store after a packaging run, whatever
    the services do. *)
Lemma package_and_upload_world (w : world value) :
  files (fst (_package_and_upload repr b64decode aws self function image_tag
                task_results_dir result_filename args kwargs w))
  = match fault aws (upload w) with
    | Some _ => delete (function_file self w) (files w)
    | None =>
        delete (exec_script_file self w)
          (delete (dockerfile_file self w)
             (match fault aws (CopyFile value (dockerfile_file self w) local_dockerfile)
              with
              | Some _ => fun m => m
              | None =>
                  <[local_dockerfile :=
                      Bytes (_format_dockerfile (exec_script_file self w)
                               docker_working_dir)]>
              end
                (<[dockerfile_file self w :=
                     Bytes (_format_dockerfile (exec_script_file self w)
                              docker_working_dir)]>
                   (<[exec_script_file self w := Bytes exec_script]>
                      (<[dockerfile_file self w := Bytes ""]>
                         (<[exec_script_file self w := Bytes ""]>
                            (delete (function_file self w) (files w))))))))
    end
  /\ s3_objects (fst (_package_and_upload repr b64decode aws self function image_tag
                        task_results_dir result_filename args kwargs w))
     = match fault aws (upload w) with
       | Some _ => s3_objects w
       | None => <[(s3_bucket_name self, func_filename) := Pickled function]> (s3_objects w)
       end.
Proof.
  destruct (upload_function_world w) as (w1 & Hrun1 & Hfiles1 & Hs31 & Hcount1 & Hstems1).
  unfold _package_and_upload. fold func_filename. unfold bind. rewrite Hrun1.
  destruct (fault aws (upload w)) as [x|]; [done|].
  destruct (build_image_world w1) as (w2 & r & Hrun2 & Hfiles2 & Hs32).
  assert (Hs : nth_tmp_name self w1 0 ".py" = exec_script_file self w)
    by (unfold exec_script_file, nth_tmp_name; by rewrite Hstems1, Hcount1).
  assert (Hd : nth_tmp_name self w1 1 "" = dockerfile_file self w)
    by (unfold dockerfile_file, nth_tmp_name; by rewrite Hstems1, Hcount1).
  rewrite Hs, Hd, Hfiles1 in Hfiles2. rewrite Hs31 in Hs32.
  rewrite Hrun2. destruct r as [x|[]]; simpl; [done|].
  pose proof (push_image_same_files w2) as Hf. pose proof (push_image_same_s3_objects w2) as Hs3.
  unfold same_on in Hf, Hs3. by rewrite Hf, Hs3.
Qed.

End PackageFiles.

(** X9: in a packaging run whose upload succeeds and whose copy of the
    Dockerfile into the results directory succeeds, the Dockerfile written
    for the run is left there under [Dockerfile_{image_tag}], also when the
    build, the registry or the push raises afterwards. *)
Theorem package_keeps_dockerfile_copy {value} (repr : value -> string)
    (b64decode : string -> exn + string) (aws : cloud value) (self : BraketExecutor)
    (function : value) (image_tag task_results_dir result_filename : string)
    (args : list value) (kwargs : list (value * value)) (w : world value) :
  fault aws (S3UploadFile value (function_file self w) (s3_bucket_name self)
               ("func-" +:+ image_tag +:+ ".pkl")) = None ->
  fault aws (CopyFile value (dockerfile_file self w)
               (Py.path_join task_results_dir ("Dockerfile_" +:+ image_tag))) = None ->
  Py.path_join task_results_dir ("Dockerfile_" +:+ image_tag) <> exec_script_file self w ->
  Py.path_join task_results_dir ("Dockerfile_" +:+ image_tag) <> dockerfile_file self w ->
  files (fst (_package_and_upload repr b64decode aws self function image_tag
                task_results_dir result_filename args kwargs w))
    !! Py.path_join task_results_dir ("Dockerfile_" +:+ image_tag)
  = Some (Bytes (_format_dockerfile (exec_script_file self w) docker_working_dir)).
Proof.
  intros Hup Hcopy Hs Hd.
  destruct (package_and_upload_world repr b64decode aws self function image_tag
              task_results_dir result_filename args kwargs w) as [Hfiles _].
  rewrite Hfiles, Hup, Hcopy.
  rewrite lookup_delete_ne by done. rewrite lookup_delete_ne by done.
  apply lookup_insert_eq.
Qed.

Lemma package_keeps_dockerfile_copy_witness :
  files (fst (Scenario.packaging Scenario.first_run)) !! "/results/d1/Dockerfile_d1-1"
  = Some (Bytes (_format_dockerfile (exec_script_file Scenario.executor Scenario.first_run)
                   docker_working_dir)).
Proof.
  apply (package_keeps_dockerfile_copy Scenario.py_repr Scenario.decoded Scenario.services
           Scenario.executor "f" "d1-1" "/results/d1" "result-d1-1.pkl" ["x"] []
           Scenario.first_run);
    first [reflexivity | vm_compute; discriminate].
Defined.

(** X10: in a packaging run whose upload succeeds, neither the temporary
    script file nor the temporary Dockerfile exists at the end, whether the
    build succeeds or raises. *)
Theorem package_removes_temporary_files {value} (repr : value -> string)
    (b64decode : string -> exn + string) (aws : cloud value) (self : BraketExecutor)
    (function : value) (image_tag task_results_dir result_filename : string)
    (args : list value) (kwargs : list (value * value)) (w : world value) :
  fault aws (S3UploadFile value (function_file self w) (s3_bucket_name self)
               ("func-" +:+ image_tag +:+ ".pkl")) = None ->
  files (fst (_package_and_upload repr b64decode aws self function image_tag
                task_results_dir result_filename args kwargs w))
    !! exec_script_file self w = None
  /\ files (fst (_package_and_upload repr b64decode aws self function image_tag
                   task_results_dir result_filename args kwargs w))
       !! dockerfile_file self w = None.
Proof.
  intros Hup.
  destruct (package_and_upload_world repr b64decode aws self function image_tag
              task_results_dir result_filename args kwargs w) as [Hfiles _].
  rewrite Hfiles, Hup. split.
  - apply lookup_delete_eq.
  - destruct (decide (exec_script_file self w = dockerfile_file self w)) as [->|Hne].
    + apply lookup_delete_eq.
    + rewrite lookup_delete_ne by done. apply lookup_delete_eq.
Qed.

Lemma package_removes_temporary_files_witness :
  files (fst (Scenario.packaging Scenario.first_run))
    !! exec_script_file Scenario.executor Scenario.first_run = None
  /\ files (fst (Scenario.packaging Scenario.first_run))
       !! dockerfile_file Scenario.executor Scenario.first_run = None.
Proof.
  apply (package_removes_temporary_files Scenario.py_repr Scenario.decoded
           Scenario.services Scenario.executor "f" "d1-1" "/results/d1" "result-d1-1.pkl"
           ["x"] [] Scenario.first_run).
  reflexivity.
Defined.

(** X11: whatever the services do, a packaging run changes no local file
    other than its temporary files and the copy of the Dockerfile: at every
    other path the files are as before, and the temporary file of the
    pickled callable is gone. *)
Theorem package_touches_only_its_files {value} (repr : value -> string)
    (b64decode : string -> exn + string) (aws : cloud value) (self : BraketExecutor)
    (function : value) (image_tag task_results_dir result_filename : string)
    (args : list value) (kwargs : list (value * value)) (w : world value)
    (path : string) :
  path <> exec_script_file self w ->
  path <> dockerfile_file self w ->
  path <> Py.path_join task_results_dir ("Dockerfile_" +:+ image_tag) ->
  files (fst (_package_and_upload repr b64decode aws self function image_tag
                task_results_dir result_filename args kwargs w))
    !! path
  = delete (function_file self w) (files w) !! path.
Proof.
  intros Hs Hd Hl.
  destruct (package_and_upload_world repr b64decode aws self function image_tag
              task_results_dir result_filename args kwargs w) as [Hfiles _].
  rewrite Hfiles. destruct (fault aws _); [done|].
  rewrite !lookup_delete_ne by done.
  destruct (fault aws _); by rewrite !lookup_insert_ne by done.
Qed.

Lemma package_touches_only_its_files_witness :
  files (fst (Scenario.packaging Scenario.first_run)) !! "/results/d1/notes.txt"
  = delete (function_file Scenario.executor Scenario.first_run)
      (files Scenario.first_run) !! "/results/d1/notes.txt".
Proof.
  apply (package_touches_only_its_files Scenario.py_repr Scenario.decoded
           Scenario.services Scenario.executor "f" "d1-1" "/results/d1" "result-d1-1.pkl"
           ["x"] [] Scenario.first_run "/results/d1/notes.txt");
    vm_compute; discriminate.
Defined.

(** X12: after a packaging run the object store differs from before in one
    key at most: when the upload does not raise, [func-{image_tag}.pkl]
    holds the pickle of the callable, whatever the build and the push do
    later; when it raises, the store is as before. *)
Theorem package_stores_callable {value} (repr : value -> string)
    (b64decode : string -> exn + string) (aws : cloud value) (self : BraketExecutor)
    (function : value) (image_tag task_results_dir result_filename : string)
    (args : list value) (kwargs : list (value * value)) (w : world value) :
  s3_objects (fst (_package_and_upload repr b64decode aws self function image_tag
                     task_results_dir result_filename args kwargs w))
  = match fault aws (S3UploadFile value (function_file self w) (s3_bucket_name self)
                       ("func-" +:+ image_tag +:+ ".pkl")) with
    | Some _ => s3_objects w
    | None =>
        <[(s3_bucket_name self, "func-" +:+ image_tag +:+ ".pkl") := Pickled function]>
          (s3_objects w)
    end.
Proof.
  by destruct (package_and_upload_world repr b64decode aws self function image_tag
                 task_results_dir result_filename args kwargs w) as [_ Hs3].
Qed.

(** ** The script named in the Dockerfile *)

Module PathFacts.

Import Py.

Lemma string_all_app (p : ascii -> bool) (a b : string) :
  string_all p (a +:+ b) = string_all p a && string_all p b.
Proof.
  induction a as [|c a IH]; rewrite ?TagFacts.app_cons_s, ?TagFacts.app_nil_s; simpl;
    [done | by rewrite IH, andb_assoc].
Qed.

Lemma basename_go_no_slash (acc s : string) :
  no_slash s = true -> basename_go acc s = acc.
Proof.
  unfold no_slash. revert acc. induction s as [|c s IH]; intros acc H; simpl in *; [done|].
  apply andb_true_iff in H as [Hc Hs]. apply negb_true_iff in Hc. rewrite Hc. by apply IH.
Qed.

Lemma basename_go_after_slash (acc a b : string) :
  no_slash b = true -> basename_go acc (a +:+ String "/" b) = b.
Proof.
  intros Hb. revert acc.
  induction a as [|c a IH]; intros acc;
    rewrite ?TagFacts.app_cons_s, ?TagFacts.app_nil_s; simpl.
  - by apply basename_go_no_slash.
  - destruct (Ascii.eqb c "/"); apply IH.
Qed.

Lemma ends_with_slash_cons (c : ascii) (a : string) :
  ends_with_slash (String c a)
  = match a with
    | EmptyString => Ascii.eqb c "/"
    | _ => ends_with_slash a
    end.
Proof. by destruct a. Qed.

Lemma ends_with_slash_inv (a : string) :
  ends_with_slash a = true -> exists a', a = a' +:+ "/".
Proof.
  induction a as [|c a IH]; [done|].
  rewrite ends_with_slash_cons. destruct a as [|d a].
  - intros H. apply Ascii.eqb_eq in H as ->. by exists "".
  - intros H. destruct (IH H) as [a' Ha']. exists (String c a').
    by rewrite TagFacts.app_cons_s, <- Ha'.
Qed.

Lemma path_join_relative (a : string) (c : ascii) (b : string) :
  Ascii.eqb c "/" = false ->
  path_join a (String c b)
  = if (a =? "")%string || ends_with_slash a then a +:+ String c b
    else a +:+ "/" +:+ String c b.
Proof.
  intros Hc. unfold path_join.
  destruct c as [[] [] [] [] [] [] [] []]; try reflexivity. discriminate.
Qed.

(** The basename of a file joined to a directory is the file's name. *)
Lemma basename_path_join (a b : string) :
  no_slash b = true -> basename (path_join a b) = b.
Proof.
  intros Hb. destruct b as [|c b].
  - unfold path_join. destruct ((a =? "")%string || ends_with_slash a) eqn:Ha.
    + rewrite app_nil_r_s. apply orb_true_iff in Ha as [Ha|Ha].
      * by apply String.eqb_eq in Ha as ->.
      * destruct (ends_with_slash_inv a Ha) as [a' ->].
        unfold basename. by apply (basename_go_after_slash _ a' "").
    + unfold basename. by apply (basename_go_after_slash _ a "").
  - assert (Hc : Ascii.eqb c "/" = false).
    { unfold no_slash in Hb. simpl in Hb. apply andb_true_iff in Hb as [Hc _].
      by apply negb_true_iff in Hc. }
    rewrite (path_join_relative a c b Hc).
    destruct ((a =? "")%string || ends_with_slash a) eqn:Ha.
    + apply orb_true_iff in Ha as [Ha|Ha].
      * apply String.eqb_eq in Ha as ->. rewrite TagFacts.app_nil_s.
        unfold basename. by apply basename_go_no_slash.
      * destruct (ends_with_slash_inv a Ha) as [a' ->].
        unfold basename. rewrite app_assoc_s.
        by apply (basename_go_after_slash _ a' (String c b)).
    + unfold basename. by apply (basename_go_after_slash _ a (String c b)).
Qed.

End PathFacts.

(** X13: in a packaging run whose upload and copy succeed, and in which
    [tempfile] picks a name without a slash, the Dockerfile the build reads
    names the script in its [COPY] and [ENV] lines by the bare name
    [tmp{stem}.py] of the temporary script file, without its directory. *)
Theorem dockerfile_names_script_file {value} (repr : value -> string)
    (b64decode : string -> exn + string) (aws : cloud value) (self : BraketExecutor)
    (function : value) (image_tag task_results_dir result_filename : string)
    (args : list value) (kwargs : list (value * value)) (w : world value) :
  fault aws (S3UploadFile value (function_file self w) (s3_bucket_name self)
               ("func-" +:+ image_tag +:+ ".pkl")) = None ->
  fault aws (CopyFile value (dockerfile_file self w)
               (Py.path_join task_results_dir ("Dockerfile_" +:+ image_tag))) = None ->
  no_slash (tmp_stems w (S (tmp_count w))) = true ->
  built_dockerfile
    (_package_and_upload repr b64decode aws self function image_tag task_results_dir
       result_filename args kwargs) w
  = Some (Bytes
            (dockerfile_head +:+
             unlines [
               "WORKDIR " +:+ docker_working_dir;
               "";
               "COPY " +:+ ("tmp" +:+ tmp_stems w (S (tmp_count w)) +:+ ".py") +:+ " "
                 +:+ docker_working_dir;
               "";
               "ENV SAGEMAKER_PROGRAM " +:+ ("tmp" +:+ tmp_stems w (S (tmp_count w)) +:+ ".py")
             ])).
Proof.
  intros Hup Hcopy Hstem.
  assert (Hname : no_slash ("tmp" +:+ tmp_stems w (S (tmp_count w)) +:+ ".py") = true).
  { unfold no_slash in *. rewrite !PathFacts.string_all_app, Hstem. reflexivity. }
  destruct (package_and_upload_calls repr b64decode aws self function image_tag
              task_results_dir result_filename args kwargs w Hup Hcopy)
    as (context & tail & Hcalls & Hdocker & _).
  unfold built_dockerfile. rewrite Hcalls. simpl. rewrite Hdocker.
  unfold _format_dockerfile, exec_script_file, nth_tmp_name. simpl.
  by rewrite (PathFacts.basename_path_join _ _ Hname).
Qed.

Lemma dockerfile_names_script_file_witness :
  built_dockerfile Scenario.packaging Scenario.first_run
  = Some (Bytes
            (dockerfile_head +:+
             unlines [
               "WORKDIR " +:+ docker_working_dir;
               "";
               "COPY " +:+ ("tmp" +:+ "abc1" +:+ ".py") +:+ " " +:+ docker_working_dir;
               "";
               "ENV SAGEMAKER_PROGRAM " +:+ ("tmp" +:+ "abc1" +:+ ".py")
             ])).
Proof.
  apply (dockerfile_names_script_file Scenario.py_repr Scenario.decoded Scenario.services
           Scenario.executor "f" "d1-1" "/results/d1" "result-d1-1.pkl" ["x"] []
           Scenario.first_run); reflexivity.
Defined.

(** ** The registry *)

(** X14: when the registry returns no authorization data, packaging ends
    with [IndexError] right after the token call: there is no login, and
    nothing is tagged or pushed. *)
Theorem push_without_authorization_data {value} (b64decode : string -> exn + string)
    (aws : cloud value) (self : BraketExecutor) (image_tag : string) (w : world value) :
  fault aws (EcrGetAuthorizationToken value) = None ->
  ecr_authorizationData value aws = [] ->
  push_image b64decode aws self image_tag w
  = (add_trace [EcrGetAuthorizationToken value] w, inl IndexError).
Proof.
  intros Hfault Hdata.
  unfold push_image, ecr_get_authorization_token, bind, call.
  rewrite Hfault. simpl. by rewrite Hdata.
Qed.

Lemma push_without_authorization_data_witness :
  push_image Scenario.decoded Cases.services_no_token Scenario.executor "d1-1"
    Scenario.first_run
  = (add_trace [EcrGetAuthorizationToken string] Scenario.first_run, inl IndexError).
Proof.
  apply (push_without_authorization_data Scenario.decoded Cases.services_no_token
           Scenario.executor "d1-1" Scenario.first_run);
    reflexivity.
Defined.

(** When the push returns, its last call pushed the reference it returns. *)
Lemma push_image_returns {value} (b64decode : string -> exn + string) (aws : cloud value)
    (self : BraketExecutor) (image_tag : string) (w w' : world value) (uri : string) :
  push_image b64decode aws self image_tag w = (w', inr uri) ->
  exists password registry,
    trace w' = trace w
               ++ [EcrGetAuthorizationToken value;
                   DockerLogin value "AWS" password registry;
                   DockerTag value uri image_tag;
                   DockerPush value uri image_tag].
Proof.
  unfold push_image, ecr_get_authorization_token, decode_utf8, lift, bind, call, first,
    getitem, ret, raise.
  destruct (fault aws (EcrGetAuthorizationToken value)); simpl; [done|].
  destruct (ecr_authorizationData value aws) as [|cred others]; simpl; [done|].
  destruct (cred !! "authorizationToken") as [token|]; simpl; [|done].
  destruct (b64decode token) as [x|decoded]; simpl; [done|].
  destruct (Py.valid_utf8 _); simpl; [|done].
  destruct (cred !! "proxyEndpoint") as [registry|]; simpl; [|done].
  destruct (fault aws (DockerLogin _ _ _ _)); simpl; [done|].
  destruct (fault aws (DockerTag _ _ _)); simpl; [done|].
  destruct (fault aws (DockerPush _ _ _)); simpl; [done|].
  intros [= <- <-]. do 2 eexists. simpl. by rewrite <- !app_assoc.
Qed.

(** ** Submission comes after the push, and once *)

Lemma no_create_job_not_in {value} (es : list (event value)) (spec : JobSpec) :
  forallb not_create_job es = true -> BraketCreateJob value spec ∈ es -> False.
Proof.
  induction es as [|e es IH]; intros Hall Hin.
  - by apply elem_of_nil in Hin.
  - simpl in Hall. apply andb_true_iff in Hall as [He Hes].
    apply elem_of_cons in Hin as [<-|Hin]; [done | by apply IH].
Qed.

Section SubmitFacts.

Context {value : Type} (repr : value -> string) (b64decode : string -> exn + string).
Context (aws : cloud value) (self : BraketExecutor).

Lemma upload_function_no_create (function : value) (func_filename : string) :
  evolves (adds not_create_job) (upload_function aws self function func_filename).
Proof.
  unfold upload_function, with_tempfile, s3_upload_file. evolve adds_prim.
Qed.

Lemma build_image_no_create (func_filename image_tag task_results_dir result_filename : string)
    (args : list value) (kwargs : list (value * value)) :
  evolves (adds not_create_job)
    (build_image repr aws self func_filename image_tag task_results_dir result_filename
       args kwargs).
Proof.
  unfold build_image, with_tempfile, copyfile. evolve adds_prim.
Qed.

Lemma push_image_no_create (image_tag : string) :
  evolves (adds not_create_job) (push_image b64decode aws self image_tag).
Proof.
  unfold push_image, ecr_get_authorization_token. evolve adds_prim.
Qed.

Lemma package_and_upload_no_create (function : value)
    (image_tag task_results_dir result_filename : string)
    (args : list value) (kwargs : list (value * value)) :
  evolves (adds not_create_job)
    (_package_and_upload repr b64decode aws self function image_tag task_results_dir
       result_filename args kwargs).
Proof.
  pose proof upload_function_no_create. pose proof build_image_no_create.
  pose proof push_image_no_create.
  unfold _package_and_upload. evolve_with ltac:(first [assumption | eauto]) fail.
Qed.

(** A packaging run that returns has pushed the reference it returns. *)
Lemma package_and_upload_returns (function : value)
    (image_tag task_results_dir result_filename : string)
    (args : list value) (kwargs : list (value * value)) (w w' : world value) (uri : string) :
  _package_and_upload repr b64decode aws self function image_tag task_results_dir
    result_filename args kwargs w = (w', inr uri) ->
  exists es,
    trace w' = trace w ++ es
    /\ forallb not_create_job es = true
    /\ DockerPush value uri image_tag ∈ es.
Proof.
  unfold _package_and_upload, bind. intros Hrun.
  pose proof (upload_function_no_create function ("func-" +:+ image_tag +:+ ".pkl") w)
    as (es1 & Ht1 & Hn1).
  destruct (upload_function _ _ _ _ w) as [w1 [x|[]]]; [done|]. simpl in *.
  pose proof (build_image_no_create ("func-" +:+ image_tag +:+ ".pkl") image_tag
                task_results_dir result_filename args kwargs w1) as (es2 & Ht2 & Hn2).
  destruct (build_image _ _ _ _ _ _ _ _ _ w1) as [w2 [x|[]]]; [done|]. simpl in *.
  destruct (push_image_returns b64decode aws self image_tag w2 w' uri Hrun)
    as (password & registry & Ht3).
  exists (es1 ++ es2 ++ [EcrGetAuthorizationToken value;
                         DockerLogin value "AWS" password registry;
                         DockerTag value uri image_tag;
                         DockerPush value uri image_tag]).
  split; [by rewrite Ht3, Ht2, Ht1, <- !app_assoc|]. split.
  - rewrite !forallb_app, Hn1, Hn2. reflexivity.
  - rewrite !elem_of_app. right. right. set_solver.
Qed.

Lemma poll_braket_job_no_create (job_arn : string) :
  evolves (adds not_create_job) (_poll_braket_job aws self job_arn).
Proof.
  apply (poll_braket_job_evolves aws self (adds not_create_job));
    [adds_prim | unfold braket_get_job; evolve adds_prim].
Qed.

Lemma query_result_no_create (result_filename task_results_dir job_arn image_tag : string) :
  evolves (adds not_create_job)
    (_query_result aws self result_filename task_results_dir job_arn image_tag).
Proof.
  apply (query_result_evolves aws self (adds not_create_job));
    [unfold s3_download_file; evolve adds_prim | adds_prim | adds_prim | adds_prim
    | intros name; adds_prim].
Qed.

End SubmitFacts.

(** The calls of a run of [execute]: none creates a job, or exactly one
    does, after the image it names was pushed. *)
Lemma execute_trace_shape {value} (repr : value -> string) (b64decode : string -> exn + string)
    (aws : cloud value) (self : BraketExecutor) (function : value) (args : list value)
    (kwargs : list (value * value)) (dispatch_id results_dir : string) (node_id : Z)
    (w : world value) :
  exists es,
    trace (fst (execute repr b64decode aws self function args kwargs dispatch_id
                  results_dir node_id w))
    = trace w ++ es
    /\ (forallb not_create_job es = true
        \/ exists uri account before after,
             es = before
                  ++ BraketCreateJob value
                       (job_spec self uri (image_tag dispatch_id node_id) account)
                     :: after
             /\ DockerPush value uri (image_tag dispatch_id node_id) ∈ before
             /\ forallb not_create_job before = true
             /\ forallb not_create_job after = true).
Proof.
  unfold execute. unfold bind at 1. simpl. unfold bind at 1. simpl.
  unfold bind at 1. unfold call at 1.
  destruct (fault aws (StsGetCallerIdentity value)) as [x|]; simpl.
  { exists [StsGetCallerIdentity value]. split; [done | by left]. }
  destruct (sts_identity aws !! "Account") as [account|]; simpl.
  2: { exists [StsGetCallerIdentity value; AppLogWarning value (sts_identity aws)].
       split; [by rewrite <- app_assoc | by left]. }
  unfold bind at 1. unfold call at 1.
  destruct (fault aws (Mkdir value (cache_dir self))) as [x|]; simpl.
  { exists [StsGetCallerIdentity value; Mkdir value (cache_dir self)].
    split; [by rewrite <- app_assoc | by left]. }
  unfold bind at 1.
  match goal with
  | |- context [_package_and_upload _ _ _ _ _ _ _ _ _ _ ?w0] => set (w2 := w0)
  end.
  assert (Htrace2 : trace w2
                    = trace w ++ [StsGetCallerIdentity value; Mkdir value (cache_dir self)])
    by (subst w2; simpl; by rewrite <- app_assoc).
  destruct (_package_and_upload repr b64decode aws self function
              (image_tag dispatch_id node_id) (task_results_dir results_dir dispatch_id)
              (result_filename dispatch_id node_id) args kwargs w2)
    as [w3 [x|uri]] eqn:Hpackage.
  { pose proof (package_and_upload_no_create repr b64decode aws self function
                  (image_tag dispatch_id node_id) (task_results_dir results_dir dispatch_id)
                  (result_filename dispatch_id node_id) args kwargs w2) as (es & Ht & Hn).
    rewrite Hpackage in Ht. simpl in *.
    exists ([StsGetCallerIdentity value; Mkdir value (cache_dir self)] ++ es).
    split; [by rewrite Ht, Htrace2, <- app_assoc | left; by simpl]. }
  destruct (package_and_upload_returns repr b64decode aws self function
              (image_tag dispatch_id node_id) (task_results_dir results_dir dispatch_id)
              (result_filename dispatch_id node_id) args kwargs w2 w3 uri Hpackage)
    as (es & Ht & Hn & Hin).
  unfold braket_create_job. unfold bind at 1. unfold bind at 1. unfold call at 1.
  destruct (fault aws (BraketCreateJob value _)) as [x|]; simpl.
  { eexists. split.
    - rewrite Ht, Htrace2, <- !app_assoc. reflexivity.
    - right. exists uri, account,
        ([StsGetCallerIdentity value; Mkdir value (cache_dir self)] ++ es), [].
      split; [by rewrite <- !app_assoc|]. split; [set_solver|]. by split. }
  match goal with
  | |- exists _, trace (fst (?m ?w0)) = _ /\ _ =>
      assert (Hrest : evolves (adds not_create_job) m); [| destruct (Hrest w0) as (es' & Ht' & Hn')]
  end.
  { evolve_with ltac:(first [apply poll_braket_job_no_create | apply query_result_no_create])
      adds_prim. }
  eexists. split.
  - refine (eq_trans Ht' _). simpl. rewrite Ht, Htrace2, <- !app_assoc. reflexivity.
  - right. exists uri, account,
      ([StsGetCallerIdentity value; Mkdir value (cache_dir self)] ++ es), es'.
    split; [by rewrite <- !app_assoc|]. split; [set_solver|]. by split.
Qed.

(** X15: in every run of [execute], whatever the services do, a job is
    created at most once, and only after the image reference in its
    specification has been pushed under the image tag. *)
Theorem execute_submits_once_after_push {value} (repr : value -> string)
    (b64decode : string -> exn + string) (aws : cloud value) (self : BraketExecutor)
    (function : value) (args : list value) (kwargs : list (value * value))
    (dispatch_id results_dir : string) (node_id : Z) (w : world value) (spec : JobSpec) :
  BraketCreateJob value spec
    ∈ calls (execute repr b64decode aws self function args kwargs dispatch_id results_dir
               node_id) w ->
  exists before after,
    calls (execute repr b64decode aws self function args kwargs dispatch_id results_dir
             node_id) w
    = before ++ BraketCreateJob value spec :: after
    /\ DockerPush value (containerImage_uri spec) (image_tag dispatch_id node_id) ∈ before
    /\ forallb not_create_job before = true
    /\ forallb not_create_job after = true.
Proof.
  destruct (execute_trace_shape repr b64decode aws self function args kwargs dispatch_id
              results_dir node_id w) as (es & Htrace & Hshape).
  unfold calls. rewrite Htrace, drop_app_length. intros Hin.
  destruct Hshape as [Hnone | (uri & account & before & after & -> & Hpush & Hb & Ha)].
  - by destruct (no_create_job_not_in es spec Hnone Hin).
  - apply elem_of_app in Hin as [Hin|Hin].
    + by destruct (no_create_job_not_in before spec Hb Hin).
    + apply elem_of_cons in Hin as [Heq|Hin].
      * injection Heq as ->. by exists before, after.
      * by destruct (no_create_job_not_in after spec Ha Hin).
Qed.

Lemma execute_submits_once_after_push_witness :
  exists before after,
    calls (execute Scenario.py_repr Scenario.decoded Scenario.services Scenario.executor
             "f" ["x"] [] "d1" "/results" 1) Scenario.completing
    = before
      ++ BraketCreateJob string
           (job_spec Scenario.executor "registry/covalent-braket-job-images:d1-1" "d1-1"
              "123")
         :: after
    /\ DockerPush string "registry/covalent-braket-job-images:d1-1" (image_tag "d1" 1)
         ∈ before
    /\ forallb not_create_job before = true
    /\ forallb not_create_job after = true.
Proof.
  apply (execute_submits_once_after_push Scenario.py_repr Scenario.decoded
           Scenario.services Scenario.executor "f" ["x"] [] "d1" "/results" 1
           Scenario.completing
           (job_spec Scenario.executor "registry/covalent-braket-job-images:d1-1" "d1-1"
              "123")).
  apply list_elem_of_lookup. exists 9%nat. reflexivity.
Defined.

(** ** Whole runs *)

Section WholeRuns.

Context {value : Type} (repr : value -> string) (b64decode : string -> exn + string).
Context (aws : cloud value) (self : BraketExecutor).
Context (function : value) (args : list value) (kwargs : list (value * value)).
Context (dispatch_id results_dir : string) (node_id : Z).

Hypothesis no_fault : forall e, fault aws e = None.

Context (account : string) (cred : dict) (others : list dict).
Context (token registry decoded : string).

Hypothesis identity_account : sts_identity aws !! "Account" = Some account.
Hypothesis registry_data : ecr_authorizationData value aws = cred :: others.
Hypothesis registry_token : cred !! "authorizationToken" = Some token.
Hypothesis registry_endpoint : cred !! "proxyEndpoint" = Some registry.
Hypothesis token_decodes : b64decode token = inr decoded.
Hypothesis token_utf8 : Py.valid_utf8 (Py.replace "AWS:" "" decoded) = true.

Let tag : string := image_tag dispatch_id node_id.
Let uri : string :=
  Py.replace "https://" "" registry +:+ "/" +:+ ecr_repo_name self +:+ ":" +:+ tag.

Lemma package_and_upload_succeeds (task_results_dir result_filename : string)
    (w : world value) :
  exists w' context,
    _package_and_upload repr b64decode aws self function tag task_results_dir
      result_filename args kwargs w = (w', inr uri)
    /\ trace w'
       = trace w
         ++ [S3UploadFile value (function_file self w) (s3_bucket_name self)
               ("func-" +:+ tag +:+ ".pkl");
             CopyFile value (dockerfile_file self w)
               (Py.path_join task_results_dir ("Dockerfile_" +:+ tag));
             DockerBuild value (cache_dir self) (dockerfile_file self w) tag context;
             EcrGetAuthorizationToken value;
             DockerLogin value "AWS" (Py.replace "AWS:" "" decoded) registry;
             DockerTag value uri tag;
             DockerPush value uri tag]
    /\ job_answers w' = job_answers w
    /\ s3_objects w'
       = <[(s3_bucket_name self, "func-" +:+ tag +:+ ".pkl") := Pickled function]>
           (s3_objects w).
Proof.
  unfold _package_and_upload, upload_function, build_image, push_image, with_tempfile,
    NamedTemporaryFile, s3_upload_file, docker_build, copyfile, write_file, remove_file,
    ecr_get_authorization_token, decode_utf8, lift, finally, bind, call, modify, first,
    getitem.
  simpl. rewrite !no_fault. simpl.
  repeat (rewrite ?lookup_insert_eq, ?no_fault, ?registry_data, ?registry_token,
            ?registry_endpoint, ?token_decodes, ?token_utf8; simpl).
  do 2 eexists. split; [reflexivity|]. simpl.
  split; [by rewrite <- !app_assoc | done].
Qed.

(** Up to the creation of the job nothing can go wrong when no service
    raises and the identity, the registry and the job service answer in
    full. *)
Lemma execute_submits (job_arn : string) (w : world value) :
  create_job_answer value aws (job_spec self uri tag account) !! "jobArn" = Some job_arn ->
  exists w' context,
    execute repr b64decode aws self function args kwargs dispatch_id results_dir node_id w
    = after_submit aws self dispatch_id results_dir node_id job_arn w'
    /\ trace w'
       = trace w
         ++ [StsGetCallerIdentity value;
             Mkdir value (cache_dir self);
             S3UploadFile value (function_file self w) (s3_bucket_name self)
               ("func-" +:+ tag +:+ ".pkl");
             CopyFile value (dockerfile_file self w)
               (Py.path_join (task_results_dir results_dir dispatch_id)
                  ("Dockerfile_" +:+ tag));
             DockerBuild value (cache_dir self) (dockerfile_file self w) tag context;
             EcrGetAuthorizationToken value;
             DockerLogin value "AWS" (Py.replace "AWS:" "" decoded) registry;
             DockerTag value uri tag;
             DockerPush value uri tag;
             BraketCreateJob value (job_spec self uri tag account)]
    /\ job_answers w' = job_answers w
    /\ s3_objects w'
       = <[(s3_bucket_name self, "func-" +:+ tag +:+ ".pkl") := Pickled function]>
           (s3_objects w).
Proof.
  intros Harn.
  destruct (package_and_upload_succeeds (task_results_dir results_dir dispatch_id)
              (result_filename dispatch_id node_id)
              (log_event value (Mkdir value (cache_dir self))
                 (log_event value (StsGetCallerIdentity value)
                    (set_environ value (insert "AWS_PROFILE" (profile self))
                       (set_environ value
                          (insert "AWS_SHARED_CREDENTIALS_FILE" (credentials self)) w)))))
    as (w3 & context & Hrun & Htrace & Hanswers & Hs3).
  exists (log_event value (BraketCreateJob value (job_spec self uri tag account)) w3),
    context.
  split; [| split; [| split]].
  - unfold execute, after_submit, braket_create_job, bind, call, modify, getitem.
    simpl. rewrite !no_fault, identity_account. simpl. fold tag. rewrite Hrun.
    fold uri. rewrite no_fault. simpl. rewrite Harn. done.
  - simpl. rewrite Htrace. simpl. by rewrite <- !app_assoc.
  - simpl. by rewrite Hanswers.
  - simpl. by rewrite Hs3.
Qed.

End WholeRuns.

(** The two ways the polling of a job that reaches a terminal status ends,
    as whole runs use them. *)
Lemma poll_braket_job_returns {value} (aws : cloud value) (self : BraketExecutor)
    (job_arn : string) (pre : list dict) (last : dict) (t : string) (rest : list dict)
    (w : world value) :
  (forall e, fault aws e = None) ->
  forallb is_pending pre = true ->
  last !! "status" = Some t -> is_terminal t = true -> t <> "FAILED" ->
  job_answers w = pre ++ last :: rest ->
  _poll_braket_job aws self job_arn w
  = (add_trace (poll_trace self job_arn (length pre)) (set_job_answers value rest w), inr tt).
Proof.
  intros Hfault Hpre Hlast Ht Hne Hw. unfold _poll_braket_job, bind.
  rewrite (poll_loop_rounds aws self job_arn (Hfault _) (Hfault _) pre last t rest w
             Hpre Hlast Ht Hw).
  by destruct (String.eqb_spec t "FAILED").
Qed.

Lemma poll_braket_job_raises {value} (aws : cloud value) (self : BraketExecutor)
    (job_arn : string) (pre : list dict) (last job : dict) (reason : string)
    (rest : list dict) (w : world value) :
  (forall e, fault aws e = None) ->
  forallb is_pending pre = true ->
  last !! "status" = Some "FAILED" ->
  job !! "failureReason" = Some reason ->
  job_answers w = pre ++ last :: job :: rest ->
  _poll_braket_job aws self job_arn w
  = (add_trace (poll_trace self job_arn (length pre) ++ [BraketGetJob value job_arn])
       (set_job_answers value rest w),
     inl (Raise "Exception" reason)).
Proof.
  intros Hfault Hpre Hlast Hreason Hw.
  unfold _poll_braket_job. unfold bind at 1.
  rewrite (poll_loop_rounds aws self job_arn (Hfault _) (Hfault _) pre last "FAILED"
             (job :: rest) w Hpre Hlast eq_refl Hw).
  simpl. unfold bind at 1.
  erewrite (braket_get_job_next aws job_arn (Hfault _) job rest); [|reflexivity].
  unfold bind, getitem. rewrite Hreason. unfold raise.
  destruct w; unfold add_trace, set_job_answers, log_event; simpl.
  by rewrite <- !app_assoc.
Qed.

(** The pickled callable and the result never share a key of the bucket. *)
Lemma func_key_is_not_result_key (tag dispatch_id : string) (node_id : Z) :
  "func-" +:+ tag +:+ ".pkl" <> result_filename dispatch_id node_id.
Proof.
  unfold result_filename. rewrite !TagFacts.app_cons_s. discriminate.
Qed.

(** X16: when no service raises and the copy of the Dockerfile succeeds,
    the identity has an account, the registry and the job service answer in
    full, the registry token decodes from base64 and, without [AWS:], is
    valid UTF-8, the job reaches COMPLETED or CANCELLED after some pending
    answers, the result object is a pickle, a log stream is found and its
    events have messages, [execute] returns the result, the log text and
    the empty string, and its calls are, in order: identity, directory,
    upload, copy, build, token, login, tag, push, job creation, the
    polling, then download and the two log queries. *)
Theorem execute_returns_result {value} (repr : value -> string)
    (b64decode : string -> exn + string) (aws : cloud value) (self : BraketExecutor)
    (function : value) (args : list value) (kwargs : list (value * value))
    (dispatch_id results_dir : string) (node_id : Z)
    (account : string) (cred : dict) (others : list dict)
    (token registry decoded job_arn : string)
    (pre : list dict) (last : dict) (t : string) (rest : list dict)
    (v : value) (stream : dict) (streams : list dict) (name : string)
    (msgs : list string) (w : world value) :
  (forall e, fault aws e = None) ->
  sts_identity aws !! "Account" = Some account ->
  ecr_authorizationData value aws = cred :: others ->
  cred !! "authorizationToken" = Some token ->
  cred !! "proxyEndpoint" = Some registry ->
  b64decode token = inr decoded ->
  Py.valid_utf8 (Py.replace "AWS:" "" decoded) = true ->
  create_job_answer value aws
    (job_spec self
       (Py.replace "https://" "" registry +:+ "/" +:+ ecr_repo_name self +:+ ":"
        +:+ image_tag dispatch_id node_id)
       (image_tag dispatch_id node_id) account)
    !! "jobArn" = Some job_arn ->
  job_answers w = pre ++ last :: rest ->
  forallb is_pending pre = true ->
  last !! "status" = Some t ->
  is_terminal t = true ->
  t <> "FAILED" ->
  s3_objects w !! (s3_bucket_name self, result_filename dispatch_id node_id)
  = Some (Pickled v) ->
  log_streams aws "/aws/braket/jobs" (log_stream_prefix (image_tag dispatch_id node_id))
  = stream :: streams ->
  stream !! "logStreamName" = Some name ->
  messages (log_events aws "/aws/braket/jobs" name) = Some msgs ->
  snd (execute repr b64decode aws self function args kwargs dispatch_id results_dir
         node_id w)
  = inr (Some v, unlines msgs, inl "")
  /\ exists context,
       calls (execute repr b64decode aws self function args kwargs dispatch_id results_dir
                node_id) w
       = [StsGetCallerIdentity value;
          Mkdir value (cache_dir self);
          S3UploadFile value (function_file self w) (s3_bucket_name self)
            ("func-" +:+ image_tag dispatch_id node_id +:+ ".pkl");
          CopyFile value (dockerfile_file self w)
            (Py.path_join (task_results_dir results_dir dispatch_id)
               ("Dockerfile_" +:+ image_tag dispatch_id node_id));
          DockerBuild value (cache_dir self) (dockerfile_file self w)
            (image_tag dispatch_id node_id) context;
          EcrGetAuthorizationToken value;
          DockerLogin value "AWS" (Py.replace "AWS:" "" decoded) registry;
          DockerTag value
            (Py.replace "https://" "" registry +:+ "/" +:+ ecr_repo_name self +:+ ":"
             +:+ image_tag dispatch_id node_id)
            (image_tag dispatch_id node_id);
          DockerPush value
            (Py.replace "https://" "" registry +:+ "/" +:+ ecr_repo_name self +:+ ":"
             +:+ image_tag dispatch_id node_id)
            (image_tag dispatch_id node_id);
          BraketCreateJob value
            (job_spec self
               (Py.replace "https://" "" registry +:+ "/" +:+ ecr_repo_name self +:+ ":"
                +:+ image_tag dispatch_id node_id)
               (image_tag dispatch_id node_id) account)]
         ++ poll_trace self job_arn (length pre)
         ++ [S3DownloadFile value (s3_bucket_name self)
               (result_filename dispatch_id node_id)
               (Py.path_join (task_results_dir results_dir dispatch_id)
                  (result_filename dispatch_id node_id));
             LogsDescribeLogStreams value "/aws/braket/jobs"
               (log_stream_prefix (image_tag dispatch_id node_id));
             LogsGetLogEvents value "/aws/braket/jobs" name].
Proof.
  intros Hfault Haccount Hdata Htoken Hendpoint Hdecode Hutf8 Harn Hanswers Hpre Hlast Ht Hne Hobj
    Hstreams Hname Hmsgs.
  destruct (execute_submits repr b64decode aws self function args kwargs dispatch_id
              results_dir node_id Hfault account cred others token registry decoded
              Haccount Hdata Htoken Hendpoint Hdecode Hutf8 job_arn w Harn)
    as (w' & context & Hexec & Htrace & Hanswers' & Hs3).
  assert (Hrun :
    execute repr b64decode aws self function args kwargs dispatch_id results_dir node_id w
    = (add_trace
         [LogsDescribeLogStreams value "/aws/braket/jobs"
            (log_stream_prefix (image_tag dispatch_id node_id));
          LogsGetLogEvents value "/aws/braket/jobs" name]
         (add_trace
            [S3DownloadFile value (s3_bucket_name self) (result_filename dispatch_id node_id)
               (Py.path_join (task_results_dir results_dir dispatch_id)
                  (result_filename dispatch_id node_id))]
            (cleaned (Py.path_join (task_results_dir results_dir dispatch_id)
                        (result_filename dispatch_id node_id)) (Pickled v)
               (add_trace (poll_trace self job_arn (length pre))
                  (set_job_answers value rest w')))),
       inr (Some v, unlines msgs, inl ""))).
  { rewrite Hexec. unfold after_submit. unfold bind at 1.
    rewrite (poll_braket_job_returns aws self job_arn pre last t rest w' Hfault Hpre Hlast
               Ht Hne); [| by rewrite Hanswers'].
    unfold bind.
    rewrite (query_result_loaded aws self _ _ _ _ v _ (Hfault _)).
    - rewrite (fetch_logs_first_stream aws _ stream streams name msgs _
                 (Hfault _) (Hfault _) Hstreams Hname Hmsgs).
      done.
    - simpl. rewrite Hs3.
      rewrite lookup_insert_ne
        by (intros [= H]; by apply func_key_is_not_result_key in H).
      done. }
  rewrite Hrun. split; [done|]. exists context.
  unfold calls. rewrite Hrun. simpl. rewrite Htrace, <- !app_assoc.
  by rewrite drop_app_length.
Qed.

Lemma execute_returns_result_witness :
  snd (execute Scenario.py_repr Scenario.decoded Scenario.services Scenario.executor
         "f" ["x"] [] "d1" "/results" 1 Cases.cancelled)
  = inr (Some "hello world", "a" +:+ nl +:+ "b" +:+ nl, inl "").
Proof.
  refine (proj1
    (execute_returns_result Scenario.py_repr Scenario.decoded Scenario.services
       Scenario.executor "f" ["x"] [] "d1" "/results" 1 "123"
       {[ "authorizationToken" := "AWS:secret"; "proxyEndpoint" := "https://registry" ]}
       [] "AWS:secret" "https://registry" "AWS:secret" "arn:job"
       [Scenario.status_answer "RUNNING"] (Scenario.status_answer "CANCELLED") "CANCELLED"
       [] "hello world" {[ "logStreamName" := "stream-1" ]} [] "stream-1" ["a"; "b"]
       Cases.cancelled _ _ _ _ _ _ _ _ _ _ _ _ _ _ _ _ _));
    first [reflexivity | discriminate | intros e; reflexivity].
Defined.

(** X17: under the same conditions on the services, the copy, the
    identity, the registry and its token, and the job service, when the
    first terminal status is FAILED and the further answer carries a
    reason, [execute] raises the exception with that reason, and its calls
    end with the query for the reason: nothing is downloaded and the log
    service is not called. *)
Theorem execute_raises_failure_reason {value} (repr : value -> string)
    (b64decode : string -> exn + string) (aws : cloud value) (self : BraketExecutor)
    (function : value) (args : list value) (kwargs : list (value * value))
    (dispatch_id results_dir : string) (node_id : Z)
    (account : string) (cred : dict) (others : list dict)
    (token registry decoded job_arn : string)
    (pre : list dict) (last job : dict) (reason : string) (rest : list dict)
    (w : world value) :
  (forall e, fault aws e = None) ->
  sts_identity aws !! "Account" = Some account ->
  ecr_authorizationData value aws = cred :: others ->
  cred !! "authorizationToken" = Some token ->
  cred !! "proxyEndpoint" = Some registry ->
  b64decode token = inr decoded ->
  Py.valid_utf8 (Py.replace "AWS:" "" decoded) = true ->
  create_job_answer value aws
    (job_spec self
       (Py.replace "https://" "" registry +:+ "/" +:+ ecr_repo_name self +:+ ":"
        +:+ image_tag dispatch_id node_id)
       (image_tag dispatch_id node_id) account)
    !! "jobArn" = Some job_arn ->
  job_answers w = pre ++ last :: job :: rest ->
  forallb is_pending pre = true ->
  last !! "status" = Some "FAILED" ->
  job !! "failureReason" = Some reason ->
  snd (execute repr b64decode aws self function args kwargs dispatch_id results_dir
         node_id w)
  = inl (Raise "Exception" reason)
  /\ exists context,
       calls (execute repr b64decode aws self function args kwargs dispatch_id results_dir
                node_id) w
       = [StsGetCallerIdentity value;
          Mkdir value (cache_dir self);
          S3UploadFile value (function_file self w) (s3_bucket_name self)
            ("func-" +:+ image_tag dispatch_id node_id +:+ ".pkl");
          CopyFile value (dockerfile_file self w)
            (Py.path_join (task_results_dir results_dir dispatch_id)
               ("Dockerfile_" +:+ image_tag dispatch_id node_id));
          DockerBuild value (cache_dir self) (dockerfile_file self w)
            (image_tag dispatch_id node_id) context;
          EcrGetAuthorizationToken value;
          DockerLogin value "AWS" (Py.replace "AWS:" "" decoded) registry;
          DockerTag value
            (Py.replace "https://" "" registry +:+ "/" +:+ ecr_repo_name self +:+ ":"
             +:+ image_tag dispatch_id node_id)
            (image_tag dispatch_id node_id);
          DockerPush value
            (Py.replace "https://" "" registry +:+ "/" +:+ ecr_repo_name self +:+ ":"
             +:+ image_tag dispatch_id node_id)
            (image_tag dispatch_id node_id);
          BraketCreateJob value
            (job_spec self
               (Py.replace "https://" "" registry +:+ "/" +:+ ecr_repo_name self +:+ ":"
                +:+ image_tag dispatch_id node_id)
               (image_tag dispatch_id node_id) account)]
         ++ poll_trace self job_arn (length pre)
         ++ [BraketGetJob value job_arn].
Proof.
  intros Hfault Haccount Hdata Htoken Hendpoint Hdecode Hutf8 Harn Hanswers Hpre Hlast Hreason.
  destruct (execute_submits repr b64decode aws self function args kwargs dispatch_id
              results_dir node_id Hfault account cred others token registry decoded
              Haccount Hdata Htoken Hendpoint Hdecode Hutf8 job_arn w Harn)
    as (w' & context & Hexec & Htrace & Hanswers' & Hs3).
  assert (Hrun :
    execute repr b64decode aws self function args kwargs dispatch_id results_dir node_id w
    = (add_trace (poll_trace self job_arn (length pre) ++ [BraketGetJob value job_arn])
         (set_job_answers value rest w'),
       inl (Raise "Exception" reason))).
  { rewrite Hexec. unfold after_submit. unfold bind at 1.
    rewrite (poll_braket_job_raises aws self job_arn pre last job reason rest w' Hfault
               Hpre Hlast Hreason); [done | by rewrite Hanswers']. }
  rewrite Hrun. split; [done|]. exists context.
  unfold calls. rewrite Hrun. simpl. rewrite Htrace, <- !app_assoc.
  by rewrite drop_app_length.
Qed.

Lemma execute_raises_failure_reason_witness :
  snd (execute Scenario.py_repr Scenario.decoded Scenario.services Scenario.executor
         "f" ["x"] [] "d1" "/results" 1 Scenario.failing)
  = inl (Raise "Exception" "error").
Proof.
  refine (proj1
    (execute_raises_failure_reason Scenario.py_repr Scenario.decoded Scenario.services
       Scenario.executor "f" ["x"] [] "d1" "/results" 1 "123"
       {[ "authorizationToken" := "AWS:secret"; "proxyEndpoint" := "https://registry" ]}
       [] "AWS:secret" "https://registry" "AWS:secret" "arn:job"
       [Scenario.status_answer "QUEUED"] (Scenario.failure_answer "error")
       (Scenario.failure_answer "error") "error" []
       Scenario.failing _ _ _ _ _ _ _ _ _ _ _ _));
    first [reflexivity | intros e; reflexivity].
Defined.

(** ** The plugin defaults and the process environment *)

Lemma path_join_not_empty (home : string) : Py.path_join home ".aws/credentials" <> "".
Proof.
  rewrite (PathFacts.path_join_relative home "." "aws/credentials" eq_refl).
  intros H. apply (f_equal String.length) in H.
  destruct ((home =? "")%string || Py.ends_with_slash home);
    rewrite !length_app_s in H; simpl in H; lia.
Qed.

(** X18: computing the defaults raises [KeyError("HOME")] exactly when the
    home directory is unset and the credentials variable is unset or
    empty; otherwise the default credentials path is not empty, and
    without a home directory it is the value of the variable. *)
Theorem default_credentials_cases (env : gmap string string) :
  match default_credentials env with
  | inl x =>
      x = KeyError "HOME"
      /\ env !! "HOME" = None
      /\ (env !! "AWS_SHARED_CREDENTIALS_FILE" = None
          \/ env !! "AWS_SHARED_CREDENTIALS_FILE" = Some "")
  | inr path =>
      path <> ""
      /\ (env !! "HOME" = None -> env !! "AWS_SHARED_CREDENTIALS_FILE" = Some path)
  end.
Proof.
  unfold default_credentials.
  destruct (env !! "AWS_SHARED_CREDENTIALS_FILE") as [[|c s]|] eqn:Hcred;
    try (destruct (env !! "HOME") as [home|] eqn:Hhome).
  - split; [apply path_join_not_empty | congruence].
  - repeat split; auto.
  - split; [done | congruence].
  - split; [done | done].
  - split; [apply path_join_not_empty | congruence].
  - repeat split; auto.
Qed.

(** The process environment after a run, as the frame lemmas give it. *)
Lemma execute_environ_after {value} (repr : value -> string) (b64decode : string -> exn + string)
    (aws : cloud value) (self : BraketExecutor) (function : value) (args : list value)
    (kwargs : list (value * value)) (dispatch_id results_dir : string) (node_id : Z)
    (w : world value) :
  environ (fst (execute repr b64decode aws self function args kwargs dispatch_id
                  results_dir node_id w))
  = <["AWS_PROFILE" := profile self]>
      (<["AWS_SHARED_CREDENTIALS_FILE" := credentials self]> (environ w)).
Proof.
  unfold execute. unfold bind at 1. simpl. unfold bind at 1. simpl.
  match goal with
  | |- environ (fst (?m ?w')) = _ =>
      assert (Hrest : evolves (same_on environ) m); [| exact (Hrest w')]
  end.
  pose proof (package_and_upload_same_environ repr b64decode aws self) as Hpackage.
  pose proof (poll_braket_job_same_environ aws self) as Hpoll.
  pose proof (query_result_same_environ aws self) as Hquery.
  unfold braket_create_job.
  evolve_with ltac:(first [apply Hpackage | apply Hpoll | apply Hquery]) same_on_prim.
Qed.

(** X19: an executor configured with the defaults computed from the
    current environment leaves the environment as it is when both
    credential variables are set and the credentials file is not the empty
    string: [execute] writes back the values it was configured from. *)
Theorem execute_with_defaults_keeps_environ {value} (repr : value -> string)
    (b64decode : string -> exn + string) (aws : cloud value) (self : BraketExecutor)
    (function : value) (args : list value) (kwargs : list (value * value))
    (dispatch_id results_dir : string) (node_id : Z) (w : world value)
    (c : ascii) (path profile_name : string) :
  _EXECUTOR_PLUGIN_DEFAULTS (environ w) = inr self ->
  environ w !! "AWS_SHARED_CREDENTIALS_FILE" = Some (String c path) ->
  environ w !! "AWS_PROFILE" = Some profile_name ->
  environ (fst (execute repr b64decode aws self function args kwargs dispatch_id
                  results_dir node_id w))
  = environ w.
Proof.
  intros Hdefaults Hcred Hprofile. rewrite execute_environ_after.
  unfold _EXECUTOR_PLUGIN_DEFAULTS, default_credentials, default_profile in Hdefaults.
  rewrite Hcred, Hprofile in Hdefaults. injection Hdefaults as <-. simpl.
  rewrite (insert_id (environ w) "AWS_SHARED_CREDENTIALS_FILE" (String c path) Hcred).
  apply insert_id. by destruct profile_name.
Qed.

(** X20: with the defaults computed from an environment in which the
    profile variable is unset, a run of [execute] sets that variable, to
    the empty string. *)
Theorem execute_with_defaults_sets_empty_profile {value} (repr : value -> string)
    (b64decode : string -> exn + string) (aws : cloud value) (self : BraketExecutor)
    (function : value) (args : list value) (kwargs : list (value * value))
    (dispatch_id results_dir : string) (node_id : Z) (w : world value) :
  _EXECUTOR_PLUGIN_DEFAULTS (environ w) = inr self ->
  environ w !! "AWS_PROFILE" = None ->
  environ (fst (execute repr b64decode aws self function args kwargs dispatch_id
                  results_dir node_id w))
    !! "AWS_PROFILE"
  = Some "".
Proof.
  intros Hdefaults Hprofile. rewrite execute_environ_after, lookup_insert_eq.
  unfold _EXECUTOR_PLUGIN_DEFAULTS, default_profile in Hdefaults.
  rewrite Hprofile in Hdefaults.
  destruct (default_credentials (environ w)); [done|]. by injection Hdefaults as <-.
Qed.

Lemma default_credentials_cases_witness :
  "/home/user/.aws/credentials" <> ""
  /\ (Cases.env_home_only !! "HOME" = None ->
      Cases.env_home_only !! "AWS_SHARED_CREDENTIALS_FILE"
      = Some "/home/user/.aws/credentials").
Proof. exact (default_credentials_cases Cases.env_home_only). Defined.

Lemma execute_with_defaults_keeps_environ_witness :
  environ (fst (execute Scenario.py_repr Scenario.decoded Scenario.services
                  Cases.configured_executor "f" ["x"] [] "d1" "/results" 1
                  Cases.configured_world))
  = environ Cases.configured_world.
Proof.
  apply (execute_with_defaults_keeps_environ Scenario.py_repr Scenario.decoded
           Scenario.services Cases.configured_executor "f" ["x"] [] "d1" "/results" 1
           Cases.configured_world "/"%char "etc/aws/credentials" "work");
    reflexivity.
Defined.

Lemma execute_with_defaults_sets_empty_profile_witness :
  environ (fst (execute Scenario.py_repr Scenario.decoded Scenario.services
                  Cases.home_executor "f" ["x"] [] "d1" "/results" 1 Cases.home_world))
    !! "AWS_PROFILE"
  = Some "".
Proof.
  apply (execute_with_defaults_sets_empty_profile Scenario.py_repr Scenario.decoded
           Scenario.services Cases.home_executor "f" ["x"] [] "d1" "/results" 1
           Cases.home_world);
    reflexivity.
Defined.

(** ** Names derived from the image tag *)

(** X21: the result key is made of the image tag alone: two invocations
    have the same result key exactly when they have the same image tag, so
    invocations whose tags coincide read and write one result object. *)
Theorem result_filename_follows_image_tag (d1 d2 : string) (n1 n2 : Z) :
  result_filename d1 n1 = result_filename d2 n2 <-> image_tag d1 n1 = image_tag d2 n2.
Proof.
  assert (Hshape : forall d n, result_filename d n = "result-" +:+ image_tag d n +:+ ".pkl")
    by (intros d n; unfold result_filename, image_tag; by rewrite !app_assoc_s).
  rewrite !Hshape. split; [|by intros ->].
  intros H. apply TagFacts.append_inv_head in H.
  assert (Hlen : String.length (image_tag d1 n1) = String.length (image_tag d2 n2)).
  { apply (f_equal String.length) in H. rewrite !length_app_s in H. lia. }
  by destruct (app_inv_length _ _ _ _ Hlen H).
Qed.
